(** * Fooddie back end: restaurant workflow and user lifecycle

    A shallow embedding of [restaurant.service.ts] and [users.service.ts].
    An [async] method becomes a state-passing computation over the
    database: it returns either the exception it throws or its value,
    together with the database as the call leaves it.  Nothing is rolled
    back when a method throws, because the services open no transaction. *)

From stdpp Require Import gmap strings list fin_maps infinite.

Open Scope string_scope.
Open Scope Z_scope.

(** ** JavaScript values *)

Module Js.

(** Truthiness of an optional string: [undefined] and [''] are falsy. *)
Definition truthy (v : option string) : bool :=
    match v with
    | None => false
    | Some s => negb (bool_decide (s = ""))
    end.

(** [Object.assign(target, source)] on one property: an own property of
      the source replaces the target's, an absent one leaves it alone. *)
Definition assign {A : Type} (source : option A) (target : A) : A :=
    default target source.

(** [Math.ceil(a / b)] on integer-valued numbers with [0 < b].  For
      [b = 0] JavaScript produces [Infinity] or [NaN], which [Z] does not
      represent: every statement about this function assumes [0 < b].
      Below 2^53 the double division followed by [ceil] is the exact
      rounded-up quotient. *)
Definition Math_ceil_div (a b : Z) : Z := - ((- a) `div` b).

(** [s.substring(0, n)] *)
Definition substring0 (n : nat) (s : string) : string := String.substring 0 n s.

End Js.

(** ** Exceptions *)

Inductive Exception : Type :=
  | BadRequestException (message : string)
  | NotFoundException (message : string)
  | Error (message : string).

Definition message (e : Exception) : string :=
  match e with
  | BadRequestException m | NotFoundException m | Error m => m
  end.

(** [error instanceof BadRequestException] *)
Definition instanceof_BadRequestException (e : Exception) : bool :=
  match e with
  | BadRequestException _ => true
  | _ => false
  end.

Global Instance Exception_eq_dec : EqDecision Exception.
Proof. solve_decision. Defined.

(** ** Entities

    The entity classes are imported by the services but are not part of
    the sources at hand; the records below carry the columns the services
    read and write, and the ones the data model lists. *)

Inductive RestaurantStatus : Type := PENDING | APPROVED | REJECTED.

Global Instance RestaurantStatus_eq_dec : EqDecision RestaurantStatus.
Proof. solve_decision. Defined.

Inductive LogLevel : Type := LOG | WARN | ERROR.

(** The payload of an uploaded file ([Express.Multer.File]). *)
Record File : Type := mkFile {
  originalname : string;
  mimetype : string;
}.

Record AddressData : Type := mkAddressData {
  ad_street : string;
  ad_ward : string;
  ad_district : string;
  ad_city : string;
}.

Record Role : Type := mkRole {
  role_id : string;
  role_name : string;
  role_permissions : list string;
}.

Record User : Type := mkUser {
  user_id : string;
  username : string;
  email : string;
  password : string;
  user_name : option string;
  role : string;                       (* many-to-one Role, by id *)
  authProvider : option string;
  googleId : option string;
}.

Record CreateUserDto : Type := mkCreateUserDto {
  cu_username : string;
  cu_email : string;
  cu_password : string;
  cu_name : option string;
  cu_role : string;
}.

Record UpdateUserDto : Type := mkUpdateUserDto {
  uu_username : option string;
  uu_email : option string;
  uu_password : option string;
  uu_name : option string;
  uu_role : option string;
}.

Section Entities.

(** JavaScript numbers that hold coordinates stay abstract: no claim
      depends on their value. *)
Context {number : Type}.

Record Coordinates : Type := mkCoordinates {
    lat : number;
    lng : number;
  }.

(** An entity built by [repository.create] has no id until it is saved. *)
Record Address : Type := mkAddress {
    address_id : option string;
    street : option string;
    ward : option string;
    district : option string;
    city : option string;
    address_latitude : option number;
    address_longitude : option number;
  }.

Record Restaurant : Type := mkRestaurant {
    restaurant_id : option string;
    name : option string;
    description : option string;
    avatar : option string;
    backgroundImage : option string;
    certificateImage : option string;
    status : RestaurantStatus;
    openTime : option string;
    closeTime : option string;
    latitude : option number;
    longitude : option number;
    owner : string;                    (* many-to-one User, by id *)
    address : option string;           (* one-to-one Address, by id *)
  }.

Record CreateRestaurantDto : Type := mkCreateRestaurantDto {
    cr_name : option string;
    cr_description : option string;
    cr_openTime : option string;
    cr_closeTime : option string;
    cr_ownerId : option string;
    cr_latitude : option string;
    cr_longitude : option string;
    cr_address : option string;
  }.

Record UpdateRestaurantDto : Type := mkUpdateRestaurantDto {
    ur_name : option string;
    ur_description : option string;
    ur_openTime : option string;
    ur_closeTime : option string;
    ur_ownerId : option string;
  }.

(** The columns [getPreview] selects. *)
Record RestaurantPreview : Type := mkRestaurantPreview {
    pv_id : option string;
    pv_name : option string;
    pv_address : option string;
    pv_avatar : option string;
    pv_description : option string;
    pv_openTime : option string;
    pv_closeTime : option string;
  }.

(** The pagination envelope. *)
Record Page (A : Type) : Type := mkPage {
    items : list A;
    totalItems : Z;
    page : Z;
    pageSize : Z;
    totalPages : Z;
  }.

(** ** The database *)

Record Db : Type := mkDb {
    users : gmap string User;
    roles : gmap string Role;
    restaurants : gmap string Restaurant;
    addresses : gmap string Address;
    logged : list (LogLevel * string);
  }.

End Entities.

Arguments Coordinates : clear implicits.
Arguments Address : clear implicits.
Arguments Restaurant : clear implicits.
Arguments Db : clear implicits.
Arguments mkPage {A}.
Arguments items {A}.
Arguments totalItems {A}.
Arguments page {A}.
Arguments pageSize {A}.
Arguments totalPages {A}.

(** ** Asynchronous methods as computations over the database *)

Section Task.

Context {number : Type}.

(** What an [async] method does: it throws or returns, and leaves a
      database behind in both cases. *)
Definition Task (A : Type) : Type :=
    Db number -> (Exception + A) * Db number.

Definition ret {A : Type} (a : A) : Task A := fun db => (inr a, db).

Definition throw {A : Type} (e : Exception) : Task A := fun db => (inl e, db).

Definition bind {A B : Type} (m : Task A) (k : A -> Task B) : Task B :=
    fun db =>
      match m db with
      | (inr a, db') => k a db'
      | (inl e, db') => (inl e, db')
      end.

(** [try { body } catch (error) { handler }] *)
Definition try_catch {A : Type} (body : Task A) (handler : Exception -> Task A) : Task A :=
    fun db =>
      match body db with
      | (inr a, db') => (inr a, db')
      | (inl e, db') => handler e db'
      end.

(** [promise.catch(err => handler)]: the rejection is consumed. *)
Definition promise_catch (body : Task unit) (handler : Exception -> Task unit) : Task unit :=
    try_catch body handler.

(** The outcome of a collaborator's call, awaited. *)
Definition await {A : Type} (outcome : Exception + A) : Task A :=
    fun db => (outcome, db).

Definition when (b : bool) (m : Task unit) : Task unit :=
    if b then m else ret tt.

Definition logger (level : LogLevel) (text : string) : Task unit :=
    fun db =>
      (inr tt,
       mkDb (users db) (roles db) (restaurants db) (addresses db)
            (logged db ++ [(level, text)])).

End Task.

Arguments Task : clear implicits.

Notation "x <- m ;; k" := (bind m (fun x => k))
  (at level 100, m at next level, right associativity, only parsing).
Notation "m ;;; k" := (bind m (fun _ => k))
  (at level 100, right associativity, only parsing).

(** ** Collaborators

    The injected services.  An outcome [inl e] is a rejected promise. *)

Class GeocodingService (number : Type) : Type := {
  geocode : AddressData -> Exception + option (Coordinates number);
}.

Class GoogleCloudStorageService : Type := {
  uploadPublicFile : File -> string -> Exception + string;
  deleteFile : string -> Exception + unit;
}.

(** [bcrypt.hash(data, rounds)]; the salt it draws is the environment's. *)
Class Bcrypt : Type := {
  bcrypt_hash : string -> nat -> string;
}.

(** ** Repositories

    The calls the services make on TypeORM repositories, read on the
    tables of [Db]: [findOne] by primary key, [save] as insert-or-update
    on the primary key (a fresh key is generated for an entity without
    one), [delete] reporting the number of affected rows. *)

Section Repositories.

Context {number : Type}.

Definition set_users (us : gmap string User) (db : Db number) : Db number :=
  mkDb us (roles db) (restaurants db) (addresses db) (logged db).

Definition set_restaurants (rs : gmap string (Restaurant number)) (db : Db number) : Db number :=
  mkDb (users db) (roles db) rs (addresses db) (logged db).

Definition set_addresses (ads : gmap string (Address number)) (db : Db number) : Db number :=
  mkDb (users db) (roles db) (restaurants db) ads (logged db).

Definition with_restaurant_id (i : string) (r : Restaurant number) : Restaurant number :=
  mkRestaurant (Some i) (name r) (description r) (avatar r) (backgroundImage r)
    (certificateImage r) (status r) (openTime r) (closeTime r) (latitude r)
    (longitude r) (owner r) (address r).

Definition with_status (s : RestaurantStatus) (r : Restaurant number) : Restaurant number :=
  mkRestaurant (restaurant_id r) (name r) (description r) (avatar r) (backgroundImage r)
    (certificateImage r) s (openTime r) (closeTime r) (latitude r)
    (longitude r) (owner r) (address r).

Definition with_owner (o : string) (r : Restaurant number) : Restaurant number :=
  mkRestaurant (restaurant_id r) (name r) (description r) (avatar r) (backgroundImage r)
    (certificateImage r) (status r) (openTime r) (closeTime r) (latitude r)
    (longitude r) o (address r).

Definition with_address (a : option string) (r : Restaurant number) : Restaurant number :=
  mkRestaurant (restaurant_id r) (name r) (description r) (avatar r) (backgroundImage r)
    (certificateImage r) (status r) (openTime r) (closeTime r) (latitude r)
    (longitude r) (owner r) a.

Definition with_avatar (u : option string) (r : Restaurant number) : Restaurant number :=
  mkRestaurant (restaurant_id r) (name r) (description r) u (backgroundImage r)
    (certificateImage r) (status r) (openTime r) (closeTime r) (latitude r)
    (longitude r) (owner r) (address r).

Definition with_backgroundImage (u : option string) (r : Restaurant number) : Restaurant number :=
  mkRestaurant (restaurant_id r) (name r) (description r) (avatar r) u
    (certificateImage r) (status r) (openTime r) (closeTime r) (latitude r)
    (longitude r) (owner r) (address r).

Definition with_certificateImage (u : option string) (r : Restaurant number) : Restaurant number :=
  mkRestaurant (restaurant_id r) (name r) (description r) (avatar r) (backgroundImage r)
    u (status r) (openTime r) (closeTime r) (latitude r)
    (longitude r) (owner r) (address r).

Definition with_address_id (i : string) (a : Address number) : Address number :=
  mkAddress (Some i) (street a) (ward a) (district a) (city a)
    (address_latitude a) (address_longitude a).

Definition with_coordinates (la lo : option number) (a : Address number) : Address number :=
  mkAddress (address_id a) (street a) (ward a) (district a) (city a) la lo.

(** [userRepository.findOne({ where: { id } })] *)
Definition userRepository_findOne (i : string) : Task number (option User) :=
  fun db => (inr (users db !! i), db).

(** What [save] writes over a stored user: a property the entity leaves
    undefined keeps the stored value. *)
Definition merge_user (stored u : User) : User :=
  mkUser (user_id u) (username u) (email u) (password u)
    (match user_name u with Some n => Some n | None => user_name stored end)
    (role u)
    (match authProvider u with Some a => Some a | None => authProvider stored end)
    (match googleId u with Some g => Some g | None => googleId stored end).

(** [usersRepository.save(user)]: the caller sets the primary key, so a
    stored user with that key is updated and no row is added. *)
Definition usersRepository_save (u : User) : Task number User :=
  fun db =>
    let row := match users db !! user_id u with
               | Some stored => merge_user stored u
               | None => u
               end in
    (inr u, set_users (<[user_id u := row]> (users db)) db).

(** [rolesRepository.findOne({ where: { id } })] *)
Definition rolesRepository_findOne_id (i : string) : Task number (option Role) :=
  fun db => (inr (roles db !! i), db).

(** [rolesRepository.findOne({ where: { name } })] *)
Definition rolesRepository_findOne_name (n : string) : Task number (option Role) :=
  fun db =>
    (inr (snd <$> List.find (fun kv => bool_decide (role_name (snd kv) = n))
                            (map_to_list (roles db))), db).

(** [restaurantRepository.findOne({ where: { id }, relations })] *)
Definition restaurantRepository_findOne (i : string) : Task number (option (Restaurant number)) :=
  fun db => (inr (restaurants db !! i), db).

(** [restaurantRepository.save(restaurant)] *)
Definition restaurantRepository_save (r : Restaurant number) : Task number (Restaurant number) :=
  fun db =>
    let i := default (fresh (dom (restaurants db))) (restaurant_id r) in
    let r' := with_restaurant_id i r in
    (inr r', set_restaurants (<[i := r']> (restaurants db)) db).

(** [restaurantRepository.delete(id)], returning [result.affected]. *)
Definition restaurantRepository_delete (i : string) : Task number Z :=
  fun db =>
    (inr (match restaurants db !! i with Some _ => 1 | None => 0 end),
     set_restaurants (delete i (restaurants db)) db).

(** The rows [OFFSET skip LIMIT take] keeps, for [0 <= skip] and
    [0 < take]; what TypeORM and the database do outside that range is not
    modelled, and the statements below stay inside it. *)
Definition skip_take {A : Type} (skip take : Z) (rows : list A) : list A :=
  List.firstn (Z.to_nat take) (List.skipn (Z.to_nat skip) rows).

(** The rows of the restaurant table that match a [where] condition, in
    the order the database lists them. *)
Definition restaurant_rows (cond : Restaurant number -> bool) (db : Db number)
  : list (Restaurant number) :=
  List.filter cond (snd <$> map_to_list (restaurants db)).

(** [restaurantRepository.findAndCount({ where, relations, skip, take })]:
    the page of rows and the count of all matching rows. *)
Definition restaurantRepository_findAndCount
    (cond : Restaurant number -> bool) (skip take : Z)
  : Task number (list (Restaurant number) * Z) :=
  fun db =>
    let rows := restaurant_rows cond db in
    (inr (skip_take skip take rows, Z.of_nat (length rows)), db).

(** [addressRepository.create(addressData)] *)
Definition addressRepository_create (d : AddressData) : Address number :=
  mkAddress None (Some (ad_street d)) (Some (ad_ward d)) (Some (ad_district d))
    (Some (ad_city d)) None None.

(** [addressRepository.create({ street })] *)
Definition addressRepository_create_street (s : string) : Address number :=
  mkAddress None (Some s) None None None None None.

(** [addressRepository.save(address)] *)
Definition addressRepository_save (a : Address number) : Task number (Address number) :=
  fun db =>
    let i := default (fresh (dom (addresses db))) (address_id a) in
    let a' := with_address_id i a in
    (inr a', set_addresses (<[i := a']> (addresses db)) db).

(** [addressRepository.findOne] behind a loaded [restaurant.address]. *)
Definition addressRepository_findOne (i : string) : Task number (option (Address number)) :=
  fun db => (inr (addresses db !! i), db).

(** [usersRepository.delete(id)]; the service does not read the result. *)
Definition usersRepository_delete (i : string) : Task number unit :=
  fun db => (inr tt, set_users (delete i (users db)) db).

(** [usersRepository.findOne({ where: { username } })]: the first row the
    database lists with that username. *)
Definition usersRepository_findOne_username (n : string) : Task number (option User) :=
  fun db =>
    (inr (snd <$> List.find (fun kv => bool_decide (username (snd kv) = n))
                            (map_to_list (users db))), db).

(** [usersRepository.findOne({ where: { email } })] *)
Definition usersRepository_findOne_email (e : string) : Task number (option User) :=
  fun db =>
    (inr (snd <$> List.find (fun kv => bool_decide (email (snd kv) = e))
                            (map_to_list (users db))), db).

(** [restaurantRepository.findOne({ where: { owner: { id: ownerId } }, relations })] *)
Definition restaurantRepository_findOne_owner (o : string)
  : Task number (option (Restaurant number)) :=
  fun db =>
    (inr (List.find (fun r => bool_decide (owner r = o))
                    (snd <$> map_to_list (restaurants db))), db).

End Repositories.

(** ** [RestaurantService] *)

Module RestaurantService.

Section Service.

Context {number : Type}.
Context (parseFloat : string -> number).
Context {geocodingService : GeocodingService number}.
Context {gcsService : GoogleCloudStorageService}.

(** [value ? parseFloat(value) : undefined] *)
Definition parse_coordinate (v : option string) : option number :=
  if Js.truthy v then Some (parseFloat (default "" v)) else None.

(** [if (file) { url = await this.gcsService.uploadPublicFile(file, folder) }],
    with [otherwise] the value the variable held before. *)
Definition upload_if_provided (file : option File) (folder : string) (otherwise : option string)
  : Task number (option string) :=
  match file with
  | Some f => url <- await (uploadPublicFile f folder) ;; ret (Some url)
  | None => ret otherwise
  end.

(** The geocoding attempt shared by creation and address update: a result
    sets the coordinates, no result and a failure are logged and leave the
    address as it is. *)
Definition try_geocode (addressData : AddressData) (address : Address number)
  : Task number (Address number) :=
  try_catch
    (coordinates <- await (geocode addressData) ;;
     match coordinates with
     | Some c =>
         logger LOG ("Geocoding successful for address: " ++ ad_street addressData
                     ++ ", " ++ ad_city addressData) ;;;
         ret (with_coordinates (Some (lat c)) (Some (lng c)) address)
     | None =>
         logger WARN ("Geocoding returned no results for address: " ++ ad_street addressData
                      ++ ", " ++ ad_city addressData) ;;;
         ret address
     end)
    (fun geoError =>
       logger ERROR ("Geocoding failed: " ++ message geoError) ;;;
       ret address).

(** The address step of [requestRestaurantWithFiles]: the coordinates of
    the caller when both are given, a geocoding attempt otherwise. *)
Definition locate_address
    (createRestaurantDto : CreateRestaurantDto) (addressData : AddressData)
    (address : Address number)
  : Task number (Address number) :=
  if Js.truthy (cr_latitude createRestaurantDto)
     && Js.truthy (cr_longitude createRestaurantDto)
  then ret (with_coordinates
              (Some (parseFloat (default "" (cr_latitude createRestaurantDto))))
              (Some (parseFloat (default "" (cr_longitude createRestaurantDto))))
              address)
  else try_geocode addressData address.

(** The upload block of [requestRestaurantWithFiles]: its [try] and the
    [catch] that logs and rethrows as a [BadRequestException]. *)
Definition upload_new_files (avatarFile backgroundFile certificateFile : option File)
  : Task number (option string * option string * option string) :=
  try_catch
    (avatarUrl <- upload_if_provided avatarFile "restaurant-avatars" (Some "") ;;
     backgroundUrl <- upload_if_provided backgroundFile "restaurant-backgrounds" (Some "") ;;
     certificateUrl <- upload_if_provided certificateFile "restaurant-certificates" (Some "") ;;
     ret (avatarUrl, backgroundUrl, certificateUrl))
    (fun uploadError =>
       logger ERROR "Error uploading files:" ;;;
       throw (BadRequestException ("File upload failed: " ++ message uploadError))).

Definition requestRestaurantWithFiles
    (createRestaurantDto : CreateRestaurantDto) (addressData : AddressData)
    (avatarFile backgroundFile certificateFile : option File)
  : Task number (Restaurant number) :=
  try_catch
    ((if negb (Js.truthy (cr_ownerId createRestaurantDto))
      then throw (BadRequestException "Owner ID is required") else ret tt) ;;;
     owner <- userRepository_findOne (default "" (cr_ownerId createRestaurantDto)) ;;
     match owner with
     | None => throw (BadRequestException "Owner not found")
     | Some owner =>
         address <- locate_address createRestaurantDto addressData
                      (addressRepository_create addressData) ;;
         address <- addressRepository_save address ;;
         urls <- upload_new_files avatarFile backgroundFile certificateFile ;;
         let restaurant :=
           mkRestaurant None
             (cr_name createRestaurantDto) (cr_description createRestaurantDto)
             urls.1.1 urls.1.2 urls.2
             APPROVED
             (cr_openTime createRestaurantDto) (cr_closeTime createRestaurantDto)
             (parse_coordinate (cr_latitude createRestaurantDto))
             (parse_coordinate (cr_longitude createRestaurantDto))
             (user_id owner) (address_id address) in
         restaurantRepository_save restaurant
     end)
    (fun error =>
       if instanceof_BadRequestException error then throw error
       else throw (BadRequestException ("Failed to create restaurant: " ++ message error))).

(** The body shared by [create] and [requestRestaurant] once the owner is
    found: build the entity, save an address for a given address string,
    save the restaurant. *)
Definition persist_new_restaurant
    (createRestaurantDto : CreateRestaurantDto) (owner : User) (initial : RestaurantStatus)
  : Task number (Restaurant number) :=
  let restaurant :=
    mkRestaurant None
      (cr_name createRestaurantDto) (cr_description createRestaurantDto)
      None None None
      initial
      (cr_openTime createRestaurantDto) (cr_closeTime createRestaurantDto)
      (parse_coordinate (cr_latitude createRestaurantDto))
      (parse_coordinate (cr_longitude createRestaurantDto))
      (user_id owner) None in
  restaurant <-
    (if Js.truthy (cr_address createRestaurantDto)
     then
       address <- addressRepository_save
                    (addressRepository_create_street (default "" (cr_address createRestaurantDto))) ;;
       ret (with_address (address_id address) restaurant)
     else ret restaurant) ;;
  restaurantRepository_save restaurant.

Definition create (createRestaurantDto : CreateRestaurantDto) : Task number (Restaurant number) :=
  try_catch
    (if Js.truthy (cr_ownerId createRestaurantDto)
     then
       owner <- userRepository_findOne (default "" (cr_ownerId createRestaurantDto)) ;;
       match owner with
       | None => throw (Error "Owner not found")
       | Some owner => persist_new_restaurant createRestaurantDto owner APPROVED
       end
     else throw (Error "Owner ID is required"))
    (fun error => throw (Error ("Failed to create restaurant: " ++ message error))).

Definition requestRestaurant (createRestaurantDto : CreateRestaurantDto)
  : Task number (Restaurant number) :=
  try_catch
    (if Js.truthy (cr_ownerId createRestaurantDto)
     then
       owner <- userRepository_findOne (default "" (cr_ownerId createRestaurantDto)) ;;
       match owner with
       | None => throw (BadRequestException "Owner not found")
       | Some owner => persist_new_restaurant createRestaurantDto owner PENDING
       end
     else throw (BadRequestException "Owner ID is required"))
    (fun error =>
       if instanceof_BadRequestException error then throw error
       else throw (BadRequestException ("Failed to request restaurant: " ++ message error))).

Definition findOne (i : string) : Task number (Restaurant number) :=
  restaurant <- restaurantRepository_findOne i ;;
  match restaurant with
  | None => throw (Error ("Restaurant with ID " ++ i ++ " not found"))
  | Some restaurant => ret restaurant
  end.

Definition deleteRestaurantRequest (i : string) : Task number unit :=
  restaurant <- findOne i ;;
  if negb (bool_decide (status restaurant = PENDING))
  then throw (BadRequestException ("Restaurant with ID " ++ i ++ " is not a pending request"))
  else
    affected <- restaurantRepository_delete i ;;
    if bool_decide (affected = 0)
    then throw (NotFoundException ("Restaurant request with ID " ++ i ++ " not found"))
    else ret tt.

Definition approveRestaurant (i : string) : Task number (Restaurant number) :=
  restaurant <- findOne i ;;
  if negb (bool_decide (status restaurant = PENDING))
  then throw (BadRequestException ("Restaurant with ID " ++ i ++ " is not in pending status"))
  else restaurantRepository_save (with_status APPROVED restaurant).

Definition rejectRestaurant (i : string) : Task number (Restaurant number) :=
  restaurant <- findOne i ;;
  if negb (bool_decide (status restaurant = PENDING))
  then throw (BadRequestException ("Restaurant with ID " ++ i ++ " is not in pending status"))
  else restaurantRepository_save (with_status REJECTED restaurant).

(** [Object.assign(restaurant, updateRestaurantDto)] on the columns of the
    entity ([ownerId] is not one; the owner was reassigned before). *)
Definition assign_update (updateRestaurantDto : UpdateRestaurantDto) (r : Restaurant number)
  : Restaurant number :=
  mkRestaurant (restaurant_id r)
    (Js.assign (Some <$> ur_name updateRestaurantDto) (name r))
    (Js.assign (Some <$> ur_description updateRestaurantDto) (description r))
    (avatar r) (backgroundImage r) (certificateImage r) (status r)
    (Js.assign (Some <$> ur_openTime updateRestaurantDto) (openTime r))
    (Js.assign (Some <$> ur_closeTime updateRestaurantDto) (closeTime r))
    (latitude r) (longitude r) (owner r) (address r).

(** [if (updateRestaurantDto.ownerId) { ... restaurant.owner = owner }] *)
Definition reassign_owner (updateRestaurantDto : UpdateRestaurantDto) (restaurant : Restaurant number)
  : Task number (Restaurant number) :=
  if Js.truthy (ur_ownerId updateRestaurantDto)
  then
    owner <- userRepository_findOne (default "" (ur_ownerId updateRestaurantDto)) ;;
    match owner with
    | None => throw (BadRequestException "Owner not found")
    | Some owner => ret (with_owner (user_id owner) restaurant)
    end
  else ret restaurant.

(** The three uploads of an update, each replacing the URL it stands for. *)
Definition upload_replacements
    (avatarFile backgroundFile certificateFile : option File) (restaurant : Restaurant number)
  : Task number (Restaurant number) :=
  avatarUrl <- upload_if_provided avatarFile "restaurant-avatars" (avatar restaurant) ;;
  backgroundUrl <- upload_if_provided backgroundFile "restaurant-backgrounds"
                     (backgroundImage restaurant) ;;
  certificateUrl <- upload_if_provided certificateFile "restaurant-certificates"
                      (certificateImage restaurant) ;;
  ret (with_certificateImage certificateUrl
         (with_backgroundImage backgroundUrl (with_avatar avatarUrl restaurant))).

(** [file && oldUrl] *)
Definition replaced (file : option File) (oldUrl : option string) : bool :=
  bool_decide (is_Some file) && Js.truthy oldUrl.

(** [updateWithFiles]: [findOne] throws for a missing restaurant, so the
    [NotFoundException] guard after it is never taken.  The old files are
    deleted with a plain [await] inside the [try]. *)
Definition updateWithFiles
    (i : string) (updateRestaurantDto : UpdateRestaurantDto)
    (avatarFile backgroundFile certificateFile : option File)
  : Task number (Restaurant number) :=
  restaurant <- findOne i ;;
  restaurant <- reassign_owner updateRestaurantDto restaurant ;;
  let oldAvatarUrl := avatar restaurant in
  let oldBackgroundUrl := backgroundImage restaurant in
  let oldCertificateUrl := certificateImage restaurant in
  try_catch
    (restaurant <- upload_replacements avatarFile backgroundFile certificateFile restaurant ;;
     updatedRestaurant <- restaurantRepository_save (assign_update updateRestaurantDto restaurant) ;;
     when (replaced avatarFile oldAvatarUrl)
          (await (deleteFile (default "" oldAvatarUrl))) ;;;
     when (replaced backgroundFile oldBackgroundUrl)
          (await (deleteFile (default "" oldBackgroundUrl))) ;;;
     when (replaced certificateFile oldCertificateUrl)
          (await (deleteFile (default "" oldCertificateUrl))) ;;;
     ret updatedRestaurant)
    (fun error => throw (BadRequestException ("Failed to update restaurant: " ++ message error))).

(** [Object.assign(address, addressData)] *)
Definition assign_address (addressData : AddressData) (a : Address number) : Address number :=
  mkAddress (address_id a) (Some (ad_street addressData)) (Some (ad_ward addressData))
    (Some (ad_district addressData)) (Some (ad_city addressData))
    (address_latitude a) (address_longitude a).

(** [if (addressData) { ... }] of [updateWithAddressAndFiles]; the address
    of the restaurant is taken as loaded with it. *)
Definition update_address (addressData : option AddressData) (restaurant : Restaurant number)
  : Task number (Restaurant number) :=
  match addressData with
  | None => ret restaurant
  | Some addressData =>
      existing <- match address restaurant with
                  | Some a => addressRepository_findOne a
                  | None => ret None
                  end ;;
      let address :=
        match existing with
        | Some a => assign_address addressData a
        | None => addressRepository_create addressData
        end in
      address <- try_geocode addressData address ;;
      address <- addressRepository_save address ;;
      ret (with_address (address_id address) restaurant)
  end.

(** [updateWithAddressAndFiles]: as [updateWithFiles], with the address
    step, and with [.catch] on every deletion of an old file. *)
Definition updateWithAddressAndFiles
    (i : string) (updateRestaurantDto : UpdateRestaurantDto)
    (addressData : option AddressData)
    (avatarFile backgroundFile certificateFile : option File)
  : Task number (Restaurant number) :=
  restaurant <- findOne i ;;
  restaurant <- reassign_owner updateRestaurantDto restaurant ;;
  restaurant <- update_address addressData restaurant ;;
  let oldAvatarUrl := avatar restaurant in
  let oldBackgroundUrl := backgroundImage restaurant in
  let oldCertificateUrl := certificateImage restaurant in
  try_catch
    (restaurant <- upload_replacements avatarFile backgroundFile certificateFile restaurant ;;
     updatedRestaurant <- restaurantRepository_save (assign_update updateRestaurantDto restaurant) ;;
     when (replaced avatarFile oldAvatarUrl)
          (promise_catch (await (deleteFile (default "" oldAvatarUrl)))
             (fun err => logger WARN ("Failed to delete old avatar: " ++ message err))) ;;;
     when (replaced backgroundFile oldBackgroundUrl)
          (promise_catch (await (deleteFile (default "" oldBackgroundUrl)))
             (fun err => logger WARN ("Failed to delete old background image: " ++ message err))) ;;;
     when (replaced certificateFile oldCertificateUrl)
          (promise_catch (await (deleteFile (default "" oldCertificateUrl)))
             (fun err => logger WARN ("Failed to delete old certificate: " ++ message err))) ;;;
     ret updatedRestaurant)
    (fun error => throw (BadRequestException ("Failed to update restaurant: " ++ message error))).

(** *** Listings *)

(** The envelope every listing returns. *)
Definition envelope {A : Type} (rows : list A) (count page pageSize : Z) : Page A :=
  mkPage rows count page pageSize (Js.Math_ceil_div count pageSize).

Definition getRestaurantRequests (page pageSize : option Z)
  : Task number (Page (Restaurant number)) :=
  let page := default 1 page in
  let pageSize := default 10 pageSize in
  found <- restaurantRepository_findAndCount
             (fun r => bool_decide (status r = PENDING)) ((page - 1) * pageSize) pageSize ;;
  ret (envelope (fst found) (snd found) page pageSize).

Definition findAllApproved (page pageSize : option Z)
  : Task number (Page (Restaurant number)) :=
  let page := default 1 page in
  let pageSize := default 10 pageSize in
  found <- restaurantRepository_findAndCount
             (fun r => bool_decide (status r = APPROVED)) ((page - 1) * pageSize) pageSize ;;
  ret (envelope (fst found) (snd found) page pageSize).

Definition findAll (page pageSize : option Z)
  : Task number (Page (Restaurant number)) :=
  let page := default 1 page in
  let pageSize := default 10 pageSize in
  found <- restaurantRepository_findAndCount
             (fun _ => true) ((page - 1) * pageSize) pageSize ;;
  ret (envelope (fst found) (snd found) page pageSize).

(** The [select] of [getPreview]. *)
Definition preview (r : Restaurant number) : RestaurantPreview :=
  mkRestaurantPreview (restaurant_id r) (name r) (address r) (avatar r)
    (description r) (openTime r) (closeTime r).

(** [queryBuilder.getCount()] *)
Definition queryBuilder_getCount : Task number Z :=
  fun db => (inr (Z.of_nat (length (restaurant_rows (fun _ => true) db))), db).

(** [queryBuilder.skip(skip).take(take).getMany()] *)
Definition queryBuilder_getMany (skip take : Z) : Task number (list RestaurantPreview) :=
  fun db => (inr (skip_take skip take (preview <$> restaurant_rows (fun _ => true) db)), db).

Definition getPreview (page pageSize : option Z) : Task number (Page RestaurantPreview) :=
  let page := default 1 page in
  let pageSize := default 10 pageSize in
  totalItems <- queryBuilder_getCount ;;
  items <- queryBuilder_getMany ((page - 1) * pageSize) pageSize ;;
  ret (envelope items totalItems page pageSize).

Definition findByOwnerId (ownerId : string) : Task number (option (Restaurant number)) :=
  restaurant <- restaurantRepository_findOne_owner ownerId ;;
  ret restaurant.

Definition update (i : string) (updateRestaurantDto : UpdateRestaurantDto)
  : Task number (Restaurant number) :=
  restaurant <- findOne i ;;
  restaurant <-
    (if Js.truthy (ur_ownerId updateRestaurantDto)
     then
       owner <- userRepository_findOne (default "" (ur_ownerId updateRestaurantDto)) ;;
       match owner with
       | None => throw (Error "Owner not found")
       | Some owner => ret (with_owner (user_id owner) restaurant)
       end
     else ret restaurant) ;;
  restaurantRepository_save (assign_update updateRestaurantDto restaurant).

Definition remove (i : string) : Task number unit :=
  affected <- restaurantRepository_delete i ;;
  if bool_decide (affected = 0)
  then throw (Error ("Restaurant with ID " ++ i ++ " not found"))
  else ret tt.

(** The aggregate is not implemented: once the owner's restaurant is
    found the method returns 0, and [month] is not read. *)
Definition getOrderCountByOwner (ownerId : string) (month : option string) : Task number Z :=
  restaurant <- findByOwnerId ownerId ;;
  match restaurant with
  | None => throw (Error "No restaurant found for this owner")
  | Some _ => ret 0
  end.

Definition getRevenueByOwner (ownerId : string) (month : option string) : Task number Z :=
  restaurant <- findByOwnerId ownerId ;;
  match restaurant with
  | None => throw (Error "No restaurant found for this owner")
  | Some _ => ret 0
  end.

End Service.

End RestaurantService.

(** ** [UsersService] *)

Module UsersService.

(** Modelled from the spec: the name of the default role,
    [DefaultRole.USER] of the role entity, which the spec gives as "USER". *)
Definition DefaultRole_USER : string := "USER".

Section Service.

Context {number : Type}.
Context {bcrypt : Bcrypt}.

(** The identifier [uuidv4()] returns in the call at hand. *)
Context (uuidv4 : string).

(** [usersRepository.findOne({ where: { id } })] *)
Definition usersRepository_findOne (i : string) : Task number (option User) :=
  userRepository_findOne i.

Definition getMe (i : string) : Task number User :=
  user <- usersRepository_findOne i ;;
  match user with
  | None => throw (Error ("User with id " ++ i ++ " not found"))
  | Some user => ret user
  end.

(** [const { role, ...updateData } = updateUserDto] *)
Definition without_role (updateUserDto : UpdateUserDto) : UpdateUserDto :=
  mkUpdateUserDto (uu_username updateUserDto) (uu_email updateUserDto)
    (uu_password updateUserDto) (uu_name updateUserDto) None.

(** [if (updateData.password) { updateData.password = await bcrypt.hash(updateData.password, 10) }] *)
Definition hash_password_if_given (updateData : UpdateUserDto) : UpdateUserDto :=
  if Js.truthy (uu_password updateData)
  then mkUpdateUserDto (uu_username updateData) (uu_email updateData)
         (Some (bcrypt_hash (default "" (uu_password updateData)) 10))
         (uu_name updateData) (uu_role updateData)
  else updateData.

(** [Object.assign(user, updateData)]: every own property of the payload,
    a [role] one included when the payload still has it. *)
Definition Object_assign (user : User) (updateData : UpdateUserDto) : User :=
  mkUser (user_id user)
    (Js.assign (uu_username updateData) (username user))
    (Js.assign (uu_email updateData) (email user))
    (Js.assign (uu_password updateData) (password user))
    (Js.assign (Some <$> uu_name updateData) (user_name user))
    (Js.assign (uu_role updateData) (role user))
    (authProvider user) (googleId user).

Definition updateMe (i : string) (updateUserDto : UpdateUserDto) : Task number User :=
  user <- getMe i ;;
  let updateData := without_role updateUserDto in
  let updateData := hash_password_if_given updateData in
  usersRepository_save (Object_assign user updateData).

Definition create (createUserDto : CreateUserDto) : Task number User :=
  try_catch
    (role <- rolesRepository_findOne_id (cu_role createUserDto) ;;
     match role with
     | None => throw (Error "Role not found")
     | Some role =>
         let userId := Js.substring0 28 uuidv4 in
         let hashedPassword := bcrypt_hash (cu_password createUserDto) 10 in
         let user :=
           mkUser userId (cu_username createUserDto) (cu_email createUserDto)
             hashedPassword (cu_name createUserDto) (role_id role) None None in
         usersRepository_save user
     end)
    (fun error => throw (Error ("Failed to create user: " ++ message error))).

Definition register (createUserDto : CreateUserDto) (i : option string) : Task number User :=
  role <- rolesRepository_findOne_name DefaultRole_USER ;;
  match role with
  | None => throw (Error "Default User role not found")
  | Some role =>
      let i := if negb (Js.truthy i) then Js.substring0 28 uuidv4 else default "" i in
      let user :=
        mkUser i (cu_username createUserDto) (cu_email createUserDto)
          (bcrypt_hash (cu_password createUserDto) 10)
          (cu_name createUserDto) (role_id role) None None in
      usersRepository_save user
  end.

(** [updateUserProvider(id, { provider, googleId })] *)
Definition updateUserProvider (i : string) (provider googleId : string) : Task number User :=
  user <- usersRepository_findOne i ;;
  match user with
  | None => throw (Error ("User with id " ++ i ++ " not found"))
  | Some user =>
      usersRepository_save
        (mkUser (user_id user) (username user) (email user) (password user)
           (user_name user) (role user) (Some provider) (Some googleId))
  end.

Definition findByUsername (n : string) : Task number (option User) :=
  usersRepository_findOne_username n.

Definition findById (i : string) : Task number (option User) :=
  usersRepository_findOne i.

Definition findByEmail (e : string) : Task number (option User) :=
  usersRepository_findOne_email e.

(** [findOne(id)]: the user with its role, or an [Error]. *)
Definition findOne (i : string) : Task number User :=
  user <- usersRepository_findOne i ;;
  match user with
  | None => throw (Error ("User with id " ++ i ++ " not found"))
  | Some user => ret user
  end.

(** [user.role = role] *)
Definition with_role (r : Role) (user : User) : User :=
  mkUser (user_id user) (username user) (email user) (password user)
    (user_name user) (role_id r) (authProvider user) (googleId user).

(** [user.password = digest] *)
Definition with_password (digest : string) (user : User) : User :=
  mkUser (user_id user) (username user) (email user) digest
    (user_name user) (role user) (authProvider user) (googleId user).

Definition update (i : string) (updateUserDto : UpdateUserDto) : Task number User :=
  user <- findOne i ;;
  let roleId := uu_role updateUserDto in
  let updateData := without_role updateUserDto in
  user <-
    (if Js.truthy roleId
     then
       role <- rolesRepository_findOne_id (default "" roleId) ;;
       match role with
       | None => throw (Error "Role not found")
       | Some role => ret (with_role role user)
       end
     else ret user) ;;
  let updateData := hash_password_if_given updateData in
  usersRepository_save (Object_assign user updateData).

Definition updatePassword (i : string) (newPassword : string) : Task number User :=
  user <- findOne i ;;
  usersRepository_save (with_password (bcrypt_hash newPassword 10) user).

Definition remove (i : string) : Task number unit :=
  usersRepository_delete i.

End Service.

End UsersService.

(** * Vocabulary of the statements *)

Section Vocabulary.

Context {number : Type}.

(** Well-formed tables: every row is stored under its primary key. *)
Definition keyed (db : Db number) : Prop :=
  map_Forall (fun i r => restaurant_id r = Some i) (restaurants db)
  /\ map_Forall (fun i a => address_id a = Some i) (addresses db)
  /\ map_Forall (fun i u => user_id u = i) (users db).

(** A computation keeps the tables well formed. *)
Definition preserves_keyed {A : Type} (m : Task number A) : Prop :=
  forall db, keyed db -> keyed (m db).2.

(** A call returns (its promise is fulfilled). *)
Definition returns {A : Type} (out : (Exception + A) * Db number) : Prop :=
  exists a, out.1 = inr a.

(** A call throws (its promise is rejected). *)
Definition throws {A : Type} (out : (Exception + A) * Db number) : Prop :=
  exists e, out.1 = inl e.

(** The database with further lines in the log and nothing else changed. *)
Definition add_log (lines : list (LogLevel * string)) (db : Db number) : Db number :=
  mkDb (users db) (roles db) (restaurants db) (addresses db) (logged db ++ lines).

(** Two address entities name the same place. *)
Definition same_place (a a' : Address number) : Prop :=
  street a' = street a /\ ward a' = ward a
  /\ district a' = district a /\ city a' = city a.

(** The restaurant [r] is a row of [db'] that [db] did not have. *)
Definition newly_persisted (db db' : Db number) (r : Restaurant number) : Prop :=
  exists i, restaurant_id r = Some i
            /\ restaurants db !! i = None
            /\ restaurants db' !! i = Some r.

(** The upload of a provided file is rejected by the bucket. *)
Definition upload_fails {gcs : GoogleCloudStorageService}
    (file : option File) (folder : string) : Prop :=
  exists f e, file = Some f /\ uploadPublicFile f folder = inl e.

(** The upload of the file, when one is provided, goes through. *)
Definition upload_passes {gcs : GoogleCloudStorageService}
    (file : option File) (folder : string) : Prop :=
  forall f, file = Some f -> exists url, uploadPublicFile f folder = inr url.

(** One of the three uploads of a call is rejected. *)
Definition some_upload_fails {gcs : GoogleCloudStorageService}
    (avatarFile backgroundFile certificateFile : option File) : Prop :=
  upload_fails avatarFile "restaurant-avatars"
  \/ upload_fails backgroundFile "restaurant-backgrounds"
  \/ upload_fails certificateFile "restaurant-certificates".

(** Every upload of a call goes through. *)
Definition all_uploads_pass {gcs : GoogleCloudStorageService}
    (avatarFile backgroundFile certificateFile : option File) : Prop :=
  upload_passes avatarFile "restaurant-avatars"
  /\ upload_passes backgroundFile "restaurant-backgrounds"
  /\ upload_passes certificateFile "restaurant-certificates".

(** The geocoding service throws or has no result for the address. *)
Definition geocoding_unavailable {geo : GeocodingService number} (ad : AddressData) : Prop :=
  (exists e, geocode ad = inl e) \/ geocode ad = inr None.

(** The update DTO keeps the owner or names a stored user. *)
Definition new_owner_exists (db : Db number) (dto : UpdateRestaurantDto) : Prop :=
  Js.truthy (ur_ownerId dto) = true -> is_Some (users db !! default "" (ur_ownerId dto)).


(** The caller supplies both coordinates. *)
Definition coordinates_supplied (dto : CreateRestaurantDto) : bool :=
  Js.truthy (cr_latitude dto) && Js.truthy (cr_longitude dto).

(** The DTO names a stored user as owner. *)
Definition owner_exists (db : Db number) (dto : CreateRestaurantDto) : Prop :=
  Js.truthy (cr_ownerId dto) = true
  /\ is_Some (users db !! default "" (cr_ownerId dto)).

(** The role table holds a role with the default name. *)
Definition has_default_role (db : Db number) : Prop :=
  exists i ro, roles db !! i = Some ro /\ role_name ro = UsersService.DefaultRole_USER.

(** Exactly one user entity is new in [db'], and it is [u]: no stored
    user had its id, and the table is the old one plus that row. *)
Definition one_new_user (db db' : Db number) (u : User) : Prop :=
  users db !! user_id u = None
  /\ users db' = <[user_id u := u]> (users db)
  /\ size (users db') = S (size (users db)).

(** The identifier [register] stores the user under. *)
Definition register_id (uuidv4 : string) (i : option string) : string :=
  if Js.truthy i then default "" i else Js.substring0 28 uuidv4.

(** [tp] is the quotient [T / P] rounded up, for [0 < P]. *)
Definition ceiling_of (tp T P : Z) : Prop := (tp - 1) * P < T <= tp * P.

(** The envelope [env] answers page [p] of size [P] over [count] rows. *)
Definition well_paginated {A : Type} (env : Page A) (p P count : Z) : Prop :=
  page env = p /\ pageSize env = P /\ totalItems env = count
  /\ totalPages env = Js.Math_ceil_div count P
  /\ ceiling_of (totalPages env) count P
  /\ (totalPages env < p -> items env = []).

(** The listing [run] answers the request for page [p] (default 1) of
    size [ps] (default 10) over the matching [rows]: it leaves the
    database alone, its items are the window of the page, its envelope is
    well paginated, and its totals are those of every other page. *)
Definition lists_by_page {A : Type}
    (run : option Z -> option Z -> Task number (Page A))
    (rows : list A) (db : Db number) (p ps : option Z) : Prop :=
  exists env,
    run p ps db = (inr env, db)
    /\ items env = skip_take ((default 1 p - 1) * default 10 ps) (default 10 ps) rows
    /\ well_paginated env (default 1 p) (default 10 ps) (Z.of_nat (length rows))
    /\ forall q, 1 <= q -> exists env',
         run (Some q) ps db = (inr env', db)
         /\ totalItems env' = totalItems env
         /\ totalPages env' = totalPages env.

(** The items of the envelope a listing call returned. *)
Definition listed_items {A : Type} (out : (Exception + Page A) * Db number) : list A :=
  match out.1 with
  | inr env => items env
  | inl _ => []
  end.

(** The [totalItems] of the envelope a listing call returned. *)
Definition listed_total {A : Type} (out : (Exception + Page A) * Db number) : Z :=
  match out.1 with
  | inr env => totalItems env
  | inl _ => 0
  end.

(** The items of pages 1 to [n] of size [P], one call per page, in order. *)
Definition all_pages {A : Type}
    (run : option Z -> option Z -> Task number (Page A)) (P : Z) (n : nat) (db : Db number)
  : list A :=
  flat_map (fun k => listed_items (run (Some (Z.of_nat k + 1)) (Some P) db)) (seq 0 n).

(** The items of a listing call are as many as the page size allows and
    the rows left from the page's offset provide. *)
Definition page_sized {A : Type} (out : (Exception + Page A) * Db number) (p P : Z) : Prop :=
  Z.of_nat (length (listed_items out)) = Z.min P (Z.max 0 (listed_total out - (p - 1) * P)).

(** The totals the three status listings report. *)
Definition pending_total (db : Db number) : Z :=
  listed_total (RestaurantService.getRestaurantRequests None None db).

Definition approved_total (db : Db number) : Z :=
  listed_total (RestaurantService.findAllApproved None None db).

Definition all_total (db : Db number) : Z :=
  listed_total (RestaurantService.findAll None None db).

(** The password a self-service or administrative update stores for a
    payload password: the digest of a non-empty one, the stored password
    when the payload has none, and the payload's own value when it is the
    empty string. *)
Definition stored_password {bcrypt : Bcrypt} (given : option string) (before : string)
  : string :=
  if Js.truthy given then bcrypt_hash (default "" given) 10 else default before given.

(** A call of the review workflow. *)
Inductive ReviewCall : Type :=
  | Approve (i : string)
  | Reject (i : string)
  | DeleteRequest (i : string).

(** The database a review call leaves, whether it returns or throws. *)
Definition review_step (c : ReviewCall) (db : Db number) : Db number :=
  match c with
  | Approve i => (RestaurantService.approveRestaurant i db).2
  | Reject i => (RestaurantService.rejectRestaurant i db).2
  | DeleteRequest i => (RestaurantService.deleteRestaurantRequest i db).2
  end.

(** A sequence of review calls, one after the other. *)
Definition review_run (cs : list ReviewCall) (db : Db number) : Db number :=
  fold_left (fun d c => review_step c d) cs db.

(** Some stored restaurant belongs to the owner. *)
Definition owns_a_restaurant (db : Db number) (ownerId : string) : Prop :=
  exists i r, restaurants db !! i = Some r /\ owner r = ownerId.

(** The update DTO names an owner that is not stored. *)
Definition new_owner_unknown (db : Db number) (dto : UpdateRestaurantDto) : Prop :=
  Js.truthy (ur_ownerId dto) = true
  /\ users db !! default "" (ur_ownerId dto) = None.

End Vocabulary.

(** * A small database to run the services on *)

Module Sample.

Definition alice : User :=
  mkUser "u1" "alice" "a@x.com" "$2a$10$stored" (Some "Alice") "role-user" None None.

Definition role_user : Role := mkRole "role-user" "USER" ["order:create"].

Definition role_admin : Role := mkRole "role-admin" "ADMIN" ["user:write"].

Definition joes : Restaurant Z :=
  mkRestaurant (Some "r1") (Some "Joe's") None (Some "old-avatar.png") (Some "") None
    PENDING None None None None "u1" None.

Definition pho : Restaurant Z :=
  mkRestaurant (Some "r2") (Some "Pho 24") None None None None
    APPROVED None None None None "u1" None.

Definition closed : Restaurant Z :=
  mkRestaurant (Some "r3") (Some "Closed") None None None None
    REJECTED None None None None "u1" None.

Definition db : Db Z :=
  mkDb (<["u1" := alice]> ∅)
       (<["role-user" := role_user]> (<["role-admin" := role_admin]> ∅))
       (<["r1" := joes]> (<["r2" := pho]> (<["r3" := closed]> ∅)))
       ∅ [].

Definition parseFloat (s : string) : Z := Z.of_nat (String.length s).

Definition avatarFile : File := mkFile "avatar.png" "image/png".

Definition userDto : CreateUserDto :=
  mkCreateUserDto "alice" "a@x.com" "pw123" None "role-user".

Definition uuid : string := "3f2b8c1e-9d4a-4f6b-8a1c-5e7d9b0c2f14".

Definition addressData : AddressData := mkAddressData "1 Le Loi" "Ben Nghe" "1" "HCM".

Definition noChange : UpdateRestaurantDto := mkUpdateRestaurantDto None None None None None.

Definition dto : CreateRestaurantDto :=
  mkCreateRestaurantDto (Some "Joe's") None None None (Some "u1") None None None.

(** Geocoding is down and the bucket accepts nothing. *)
Definition geocoding_down : GeocodingService Z :=
  {| geocode := fun _ => inl (Error "timeout") |}.

Definition bucket_down : GoogleCloudStorageService :=
  {| uploadPublicFile := fun _ _ => inl (Error "bucket unavailable");
     deleteFile := fun _ => inl (Error "bucket unavailable") |}.

(** Uploads work, deletions fail. *)
Definition bucket_no_delete : GoogleCloudStorageService :=
  {| uploadPublicFile := fun f folder => inr (folder ++ "/" ++ originalname f);
     deleteFile := fun _ => inl (Error "delete refused") |}.

(** A stand-in for bcrypt: a digest in the modular crypt format. *)
Definition toy_bcrypt : Bcrypt :=
  {| bcrypt_hash := fun data rounds => "$2a$10$" ++ data |}.

(** Geocoding answers with fixed coordinates. *)
Definition geocoding_up : GeocodingService Z :=
  {| geocode := fun _ => inr (Some (mkCoordinates 10 106)) |}.

Definition dto_with_coordinates : CreateRestaurantDto :=
  mkCreateRestaurantDto (Some "Joe's") None None None (Some "u1")
    (Some "10.77") (Some "106.70") None.

Definition dto_with_address : CreateRestaurantDto :=
  mkCreateRestaurantDto (Some "Joe's") None None None (Some "u1") None None
    (Some "1 Le Loi").

Definition dto_without_owner : CreateRestaurantDto :=
  mkCreateRestaurantDto (Some "Joe's") None None None None None None None.

Definition new_owner_gone : UpdateRestaurantDto :=
  mkUpdateRestaurantDto None None None None (Some "u9").

Definition rename : UpdateRestaurantDto :=
  mkUpdateRestaurantDto (Some "Joe's Diner") None None None None.

Definition promote : UpdateUserDto :=
  mkUpdateUserDto None None (Some "s3cret") None (Some "role-admin").

Definition promote_unknown : UpdateUserDto :=
  mkUpdateUserDto None None None None (Some "role-root").

Definition bobDto : CreateUserDto :=
  mkCreateUserDto "bob" "b@x.com" "hunter2" None "role-admin".

(** A database with no role at all. *)
Definition db_without_roles : Db Z := mkDb (<["u1" := alice]> ∅) ∅ ∅ ∅ [].

End Sample.

(** * Properties *)

Section TaskLemmas.

Context {number : Type}.

Lemma preserves_keyed_ret {A : Type} (a : A) : preserves_keyed (number := number) (ret a).
Proof. by intros db H. Qed.

Lemma preserves_keyed_throw {A : Type} (e : Exception) :
  preserves_keyed (number := number) (throw (A := A) e).
Proof. by intros db H. Qed.

Lemma preserves_keyed_await {A : Type} (o : Exception + A) :
  preserves_keyed (number := number) (await o).
Proof. by intros db H. Qed.

Lemma preserves_keyed_logger (l : LogLevel) (s : string) :
  preserves_keyed (number := number) (logger l s).
Proof. by intros db H. Qed.

Lemma preserves_keyed_bind {A B : Type} (m : Task number A) (k : A -> Task number B) :
  preserves_keyed m -> (forall a, preserves_keyed (k a)) -> preserves_keyed (bind m k).
Proof.
  intros Hm Hk db H. unfold bind. specialize (Hm db H).
  destruct (m db) as [[e | a] db']; [done | by apply Hk].
Qed.

Lemma preserves_keyed_try_catch {A : Type} (m : Task number A) (h : Exception -> Task number A) :
  preserves_keyed m -> (forall e, preserves_keyed (h e)) -> preserves_keyed (try_catch m h).
Proof.
  intros Hm Hh db H. unfold try_catch. specialize (Hm db H).
  destruct (m db) as [[e | a] db']; [by apply Hh | done].
Qed.

Lemma preserves_keyed_restaurant_save (r : Restaurant number) :
  preserves_keyed (restaurantRepository_save r).
Proof.
  intros db (Hr & Ha & Hu). split; [| done]. simpl.
  by apply map_Forall_insert_2.
Qed.

Lemma preserves_keyed_restaurant_delete (i : string) :
  preserves_keyed (number := number) (restaurantRepository_delete i).
Proof.
  intros db (Hr & Ha & Hu). split; [| done]. simpl. by apply map_Forall_delete.
Qed.

Lemma preserves_keyed_address_save (a : Address number) :
  preserves_keyed (addressRepository_save a).
Proof.
  intros db (Hr & Ha & Hu). split; [done |]. split; [| done]. simpl.
  by apply map_Forall_insert_2.
Qed.

Lemma preserves_keyed_users_save (u : User) :
  preserves_keyed (number := number) (usersRepository_save u).
Proof.
  intros db (Hr & Ha & Hu). split; [done |]. split; [done |]. simpl.
  apply map_Forall_insert_2; [| done]. by destruct (users db !! user_id u).
Qed.

End TaskLemmas.

Create HintDb keyed.

#[export] Hint Resolve preserves_keyed_ret preserves_keyed_throw preserves_keyed_await
  preserves_keyed_logger preserves_keyed_restaurant_save preserves_keyed_restaurant_delete
  preserves_keyed_address_save preserves_keyed_users_save : keyed.

(** Walks a computation along its binds, handlers and branches. *)
Ltac keyed_walk :=
  repeat first
    [ progress eauto with keyed
    | apply preserves_keyed_bind; [| intros ?]
    | apply preserves_keyed_try_catch; [| intros ?]
    | match goal with
      | |- preserves_keyed (match ?x with _ => _ end) => destruct x
      | |- preserves_keyed (if ?b then _ else _) => destruct b
      | |- preserves_keyed _ => by intros ? ?
      end ].

(** ** Status transitions of a restaurant request *)

Section Transitions.

Context {number : Type}.

Implicit Types (db : Db number) (r : Restaurant number) (i : string).

Import RestaurantService.

Lemma findOne_found db i r :
  restaurants db !! i = Some r -> findOne i db = (inr r, db).
Proof. intros H. unfold findOne, bind, restaurantRepository_findOne. simpl. by rewrite H. Qed.

Lemma findOne_missing db i :
  restaurants db !! i = None ->
  findOne i db = (inl (Error ("Restaurant with ID " ++ i ++ " not found")), db).
Proof. intros H. unfold findOne, bind, restaurantRepository_findOne. simpl. by rewrite H. Qed.

(** What a transition out of PENDING does to a stored restaurant. *)
Lemma transition_pending db i r (target : RestaurantStatus) :
  restaurant_id r = Some i ->
  restaurantRepository_save (with_status target r) db
  = (inr (with_status target r),
     set_restaurants (<[i := with_status target r]> (restaurants db)) db).
Proof.
  intros Hid. unfold restaurantRepository_save. simpl. rewrite Hid. simpl.
  destruct r; simpl in *; by subst.
Qed.

Lemma approveRestaurant_pending db i r :
  restaurants db !! i = Some r -> restaurant_id r = Some i -> status r = PENDING ->
  approveRestaurant i db
  = (inr (with_status APPROVED r),
     set_restaurants (<[i := with_status APPROVED r]> (restaurants db)) db).
Proof.
  intros Hr Hid Hs. unfold approveRestaurant, bind. rewrite (findOne_found _ _ _ Hr).
  rewrite Hs. simpl. by apply transition_pending.
Qed.

Lemma rejectRestaurant_pending db i r :
  restaurants db !! i = Some r -> restaurant_id r = Some i -> status r = PENDING ->
  rejectRestaurant i db
  = (inr (with_status REJECTED r),
     set_restaurants (<[i := with_status REJECTED r]> (restaurants db)) db).
Proof.
  intros Hr Hid Hs. unfold rejectRestaurant, bind. rewrite (findOne_found _ _ _ Hr).
  rewrite Hs. simpl. by apply transition_pending.
Qed.

Lemma approveRestaurant_not_pending db i r :
  restaurants db !! i = Some r -> status r <> PENDING ->
  approveRestaurant i db
  = (inl (BadRequestException ("Restaurant with ID " ++ i ++ " is not in pending status")), db).
Proof.
  intros Hr Hs. unfold approveRestaurant, bind. rewrite (findOne_found _ _ _ Hr).
  by rewrite bool_decide_eq_false_2.
Qed.

Lemma rejectRestaurant_not_pending db i r :
  restaurants db !! i = Some r -> status r <> PENDING ->
  rejectRestaurant i db
  = (inl (BadRequestException ("Restaurant with ID " ++ i ++ " is not in pending status")), db).
Proof.
  intros Hr Hs. unfold rejectRestaurant, bind. rewrite (findOne_found _ _ _ Hr).
  by rewrite bool_decide_eq_false_2.
Qed.

(** C1. For a stored restaurant, [approveRestaurant] returns exactly when
    the status is PENDING, and then the stored status is APPROVED;
    [rejectRestaurant] returns under the same condition and stores
    REJECTED; on an APPROVED or REJECTED restaurant both throw and leave
    the database as it was. *)
Theorem approve_reject_iff_pending db i r :
  keyed db ->
  restaurants db !! i = Some r ->
  (returns (approveRestaurant i db) <-> status r = PENDING)
  /\ (returns (rejectRestaurant i db) <-> status r = PENDING)
  /\ (status r = PENDING ->
      (exists r', (approveRestaurant i db).1 = inr r'
                  /\ restaurants (approveRestaurant i db).2 !! i = Some r'
                  /\ status r' = APPROVED /\ r' = with_status APPROVED r)
      /\ (exists r', (rejectRestaurant i db).1 = inr r'
                  /\ restaurants (rejectRestaurant i db).2 !! i = Some r'
                  /\ status r' = REJECTED /\ r' = with_status REJECTED r))
  /\ (status r = APPROVED \/ status r = REJECTED ->
      throws (approveRestaurant i db) /\ (approveRestaurant i db).2 = db
      /\ throws (rejectRestaurant i db) /\ (rejectRestaurant i db).2 = db).
Proof.
  intros (Hk & _ & _) Hr. pose proof (Hk _ _ Hr) as Hid. simpl in Hid.
  destruct (decide (status r = PENDING)) as [Hs | Hs].
  - rewrite (approveRestaurant_pending _ _ _ Hr Hid Hs),
            (rejectRestaurant_pending _ _ _ Hr Hid Hs). simpl.
    split; [split; [done | intros _; by eexists] |].
    split; [split; [done | intros _; by eexists] |].
    split.
    + intros _. split; eexists; (split; [reflexivity |]);
        (split; [by rewrite lookup_insert_eq | done]).
    + intros [Ha | Ha]; congruence.
  - rewrite (approveRestaurant_not_pending _ _ _ Hr Hs),
            (rejectRestaurant_not_pending _ _ _ Hr Hs). simpl.
    split; [split; [intros [? ?]; done | done] |].
    split; [split; [intros [? ?]; done | done] |].
    split; [done |].
    intros _. unfold throws. simpl. repeat split; eauto.
Qed.

Lemma deleteRestaurantRequest_pending db i r :
  restaurants db !! i = Some r -> status r = PENDING ->
  deleteRestaurantRequest i db
  = (inr tt, set_restaurants (delete i (restaurants db)) db).
Proof.
  intros Hr Hs. unfold deleteRestaurantRequest, bind. rewrite (findOne_found _ _ _ Hr).
  rewrite Hs. simpl. unfold restaurantRepository_delete. by rewrite Hr.
Qed.

Lemma deleteRestaurantRequest_not_pending db i r :
  restaurants db !! i = Some r -> status r <> PENDING ->
  deleteRestaurantRequest i db
  = (inl (BadRequestException ("Restaurant with ID " ++ i ++ " is not a pending request")), db).
Proof.
  intros Hr Hs. unfold deleteRestaurantRequest, bind. rewrite (findOne_found _ _ _ Hr).
  by rewrite bool_decide_eq_false_2.
Qed.

Lemma deleteRestaurantRequest_missing db i :
  restaurants db !! i = None ->
  deleteRestaurantRequest i db
  = (inl (Error ("Restaurant with ID " ++ i ++ " not found")), db).
Proof.
  intros Hr. unfold deleteRestaurantRequest, bind. by rewrite (findOne_missing _ _ Hr).
Qed.

(** C2. [deleteRestaurantRequest] returns exactly when a restaurant with
    the id is stored and PENDING, and then the row is gone; on an APPROVED
    or REJECTED restaurant it throws and the database, the row included,
    is as before. *)
Theorem deleteRestaurantRequest_iff_pending db i :
  (returns (deleteRestaurantRequest i db)
   <-> exists r, restaurants db !! i = Some r /\ status r = PENDING)
  /\ (returns (deleteRestaurantRequest i db) ->
      restaurants (deleteRestaurantRequest i db).2 = delete i (restaurants db)
      /\ restaurants (deleteRestaurantRequest i db).2 !! i = None)
  /\ (forall r, restaurants db !! i = Some r ->
      status r = APPROVED \/ status r = REJECTED ->
      throws (deleteRestaurantRequest i db)
      /\ (deleteRestaurantRequest i db).2 = db
      /\ restaurants (deleteRestaurantRequest i db).2 !! i = Some r).
Proof.
  destruct (restaurants db !! i) as [r |] eqn:Hr.
  - destruct (decide (status r = PENDING)) as [Hs | Hs].
    + rewrite (deleteRestaurantRequest_pending _ _ _ Hr Hs). simpl.
      split; [split; [intros _; by exists r | intros _; by eexists] |].
      split; [intros _; split; [done | apply lookup_delete_eq] |].
      intros r' [= <-] [Ha | Ha]; congruence.
    + rewrite (deleteRestaurantRequest_not_pending _ _ _ Hr Hs). simpl.
      split; [split; [intros [? ?]; done | intros (r' & [= <-] & ?); done] |].
      split; [intros [? ?]; done |].
      intros r' [= <-] _. split; [by eexists | done].
  - rewrite (deleteRestaurantRequest_missing _ _ Hr). simpl.
    split; [split; [intros [? ?]; done | intros (r' & ? & ?); done] |].
    split; [intros [? ?]; done |].
    intros r' ?; done.
Qed.

End Transitions.

Lemma sample_db_keyed : keyed Sample.db.
Proof.
  unfold keyed. split; [| split]; simpl;
    repeat (apply map_Forall_insert_2; [reflexivity |]); apply map_Forall_empty.
Qed.

Lemma approve_reject_iff_pending_witness :
  keyed Sample.db
  /\ restaurants Sample.db !! "r1" = Some Sample.joes
  /\ returns (RestaurantService.approveRestaurant "r1" Sample.db)
  /\ throws (RestaurantService.approveRestaurant "r2" Sample.db).
Proof.
  split; [exact sample_db_keyed |]. split; [reflexivity |]. split.
  - apply (approve_reject_iff_pending Sample.db "r1" Sample.joes sample_db_keyed eq_refl).
    reflexivity.
  - apply (approve_reject_iff_pending Sample.db "r2" Sample.pho sample_db_keyed eq_refl).
    by left.
Defined.

(** ** Creation of restaurants *)

Section Creation.

Context {number : Type}.
Context (parseFloat : string -> number).
Context {geocodingService : GeocodingService number}.
Context {gcsService : GoogleCloudStorageService}.

Implicit Types (db : Db number) (r : Restaurant number) (dto : CreateRestaurantDto).

Import RestaurantService.

Lemma fresh_restaurant_key db : restaurants db !! fresh (dom (restaurants db)) = None.
Proof. apply not_elem_of_dom, is_fresh. Qed.

Lemma fresh_address_key db : addresses db !! fresh (dom (addresses db)) = None.
Proof. apply not_elem_of_dom, is_fresh. Qed.

(** Saving an entity that has no id yet adds one row under a fresh key. *)
Lemma save_new_restaurant db r :
  restaurant_id r = None ->
  exists i, restaurants db !! i = None
    /\ restaurantRepository_save r db
       = (inr (with_restaurant_id i r),
          set_restaurants (<[i := with_restaurant_id i r]> (restaurants db)) db).
Proof.
  intros Hid. exists (fresh (dom (restaurants db))). split; [apply fresh_restaurant_key |].
  unfold restaurantRepository_save. by rewrite Hid.
Qed.

Lemma persist_new_restaurant_spec db dto (u : User) (initial : RestaurantStatus) :
  exists r db',
    persist_new_restaurant parseFloat dto u initial db = (inr r, db')
    /\ status r = initial /\ owner r = user_id u
    /\ newly_persisted db db' r.
Proof.
  unfold persist_new_restaurant, bind.
  destruct (Js.truthy (cr_address dto)); simpl.
  - match goal with |- context [restaurantRepository_save ?r ?d] =>
      destruct (save_new_restaurant d r eq_refl) as (i & Hi & ->) end.
    do 2 eexists. split; [reflexivity |]. split; [done |]. split; [done |].
    exists i. simpl in *. split; [done |]. split; [done |]. by rewrite lookup_insert_eq.
  - match goal with |- context [restaurantRepository_save ?r ?d] =>
      destruct (save_new_restaurant d r eq_refl) as (i & Hi & ->) end.
    do 2 eexists. split; [reflexivity |]. split; [done |]. split; [done |].
    exists i. simpl in *. split; [done |]. split; [done |]. by rewrite lookup_insert_eq.
Qed.

Lemma requestRestaurant_spec db dto :
  owner_exists db dto ->
  exists r db',
    requestRestaurant parseFloat dto db = (inr r, db')
    /\ status r = PENDING /\ newly_persisted db db' r.
Proof.
  intros [Ht [u Hu]]. unfold requestRestaurant, try_catch, bind, userRepository_findOne.
  rewrite Ht. simpl. rewrite Hu.
  destruct (persist_new_restaurant_spec db dto u PENDING) as (r & db' & -> & Hs & _ & Hn).
  by exists r, db'.
Qed.

Lemma create_spec db dto :
  owner_exists db dto ->
  exists r db',
    create parseFloat dto db = (inr r, db')
    /\ status r = APPROVED /\ newly_persisted db db' r.
Proof.
  intros [Ht [u Hu]]. unfold create, try_catch, bind, userRepository_findOne.
  rewrite Ht. simpl. rewrite Hu.
  destruct (persist_new_restaurant_spec db dto u APPROVED) as (r & db' & -> & Hs & _ & Hn).
  by exists r, db'.
Qed.

Lemma add_log_nil db : add_log [] db = db.
Proof. destruct db. unfold add_log. simpl. by rewrite app_nil_r. Qed.

(** Geocoding never throws out of its [try]: it returns the address, with
    coordinates only when the service produced some, and touches nothing
    but the log. *)
Lemma try_geocode_returns (ad : AddressData) (a : Address number) db :
  exists a' lines,
    try_geocode ad a db = (inr a', add_log lines db)
    /\ address_id a' = address_id a
    /\ same_place a a'
    /\ ((forall c, geocode ad <> inr (Some c)) -> a' = a).
Proof.
  unfold try_geocode, try_catch, bind, await, logger, ret, same_place.
  destruct (geocode ad) as [e | [c |]] eqn:Hg; simpl.
  - exists a, [(ERROR, "Geocoding failed: " ++ message e)]. done.
  - exists (with_coordinates (Some (lat c)) (Some (lng c)) a),
      [(LOG, "Geocoding successful for address: " ++ ad_street ad ++ ", " ++ ad_city ad)].
    repeat split. intros Hno. by destruct (Hno c).
  - exists a, [(WARN, "Geocoding returned no results for address: "
                        ++ ad_street ad ++ ", " ++ ad_city ad)]. done.
Qed.

Lemma locate_address_returns dto (ad : AddressData) (a : Address number) db :
  exists a' lines,
    locate_address parseFloat dto ad a db = (inr a', add_log lines db)
    /\ address_id a' = address_id a
    /\ same_place a a'
    /\ (coordinates_supplied dto = false ->
        (forall c, geocode ad <> inr (Some c)) -> a' = a).
Proof.
  unfold locate_address, coordinates_supplied.
  destruct (Js.truthy (cr_latitude dto) && Js.truthy (cr_longitude dto)).
  - eexists _, []. rewrite add_log_nil. by repeat split.
  - destruct (try_geocode_returns ad a db) as (a' & lines & -> & Hid & Hsp & Hno).
    exists a', lines. split; [done |]. split; [done |]. split; [done |].
    intros _. apply Hno.
Qed.

Lemma upload_passes_or_fails (file : option File) (folder : string) :
  upload_passes file folder \/ upload_fails file folder.
Proof.
  destruct file as [f |].
  - destruct (uploadPublicFile f folder) as [e | url] eqn:Hu.
    + right. by exists f, e.
    + left. intros f' [= <-]. by exists url.
  - left. intros f' ?. done.
Qed.

Lemma upload_passes_not_fails (file : option File) (folder : string) :
  upload_passes file folder -> upload_fails file folder -> False.
Proof. intros Hp (f & e & -> & He). destruct (Hp f eq_refl) as [url Hu]. congruence. Qed.

Lemma upload_if_provided_passes (file : option File) (folder : string) (dflt : option string) db :
  upload_passes file folder ->
  exists url, upload_if_provided file folder dflt db = (inr url, db).
Proof.
  intros Hp. destruct file as [f |]; simpl; [| by eexists].
  destruct (Hp f eq_refl) as [url Hu]. unfold bind, await. rewrite Hu. by eexists.
Qed.

Lemma upload_if_provided_fails (file : option File) (folder : string) (dflt : option string) db :
  upload_fails file folder ->
  exists e, upload_if_provided file folder dflt db = (inl e, db).
Proof.
  intros (f & e & -> & He). simpl. unfold bind, await. rewrite He. by eexists.
Qed.

Lemma upload_new_files_passes (fa fb fc : option File) db :
  upload_passes fa "restaurant-avatars" ->
  upload_passes fb "restaurant-backgrounds" ->
  upload_passes fc "restaurant-certificates" ->
  exists urls, upload_new_files fa fb fc db = (inr urls, db).
Proof.
  intros Ha Hb Hc. unfold upload_new_files, try_catch, bind.
  destruct (upload_if_provided_passes fa _ (Some "") db Ha) as [ua ->].
  destruct (upload_if_provided_passes fb _ (Some "") db Hb) as [ub ->].
  destruct (upload_if_provided_passes fc _ (Some "") db Hc) as [uc ->].
  by eexists.
Qed.

Lemma upload_new_files_fails (fa fb fc : option File) db :
  upload_fails fa "restaurant-avatars"
  \/ upload_fails fb "restaurant-backgrounds"
  \/ upload_fails fc "restaurant-certificates" ->
  exists e,
    upload_new_files fa fb fc db
    = (inl (BadRequestException ("File upload failed: " ++ message e)),
       add_log [(ERROR, "Error uploading files:")] db).
Proof.
  intros Hf. unfold upload_new_files, try_catch, bind.
  destruct (upload_passes_or_fails fa "restaurant-avatars") as [Ha | Ha].
  - destruct (upload_if_provided_passes fa _ (Some "") db Ha) as [ua ->].
    destruct (upload_passes_or_fails fb "restaurant-backgrounds") as [Hb | Hb].
    + destruct (upload_if_provided_passes fb _ (Some "") db Hb) as [ub ->].
      destruct Hf as [Hf | [Hf | Hf]];
        [by destruct (upload_passes_not_fails _ _ Ha Hf)
        | by destruct (upload_passes_not_fails _ _ Hb Hf) |].
      destruct (upload_if_provided_fails fc _ (Some "") db Hf) as [e ->].
      by exists e.
    + destruct (upload_if_provided_fails fb _ (Some "") db Hb) as [e ->]. by exists e.
  - destruct (upload_if_provided_fails fa _ (Some "") db Ha) as [e ->]. by exists e.
Qed.

(** [requestRestaurantWithFiles] up to its upload block, for a DTO whose
    owner is stored: one address row is added under a fresh key, then the
    uploads decide. *)
Lemma requestRestaurantWithFiles_unfold db dto (ad : AddressData) (fa fb fc : option File) u :
  Js.truthy (cr_ownerId dto) = true ->
  users db !! default "" (cr_ownerId dto) = Some u ->
  exists a lines aid,
    addresses db !! aid = None
    /\ address_id a = Some aid
    /\ same_place (addressRepository_create ad) a
    /\ (coordinates_supplied dto = false ->
        (forall c, geocode ad <> inr (Some c)) ->
        address_latitude a = None /\ address_longitude a = None)
    /\ requestRestaurantWithFiles parseFloat dto ad fa fb fc db
       = match upload_new_files fa fb fc
                 (set_addresses (<[aid := a]> (addresses db)) (add_log lines db)) with
         | (inr urls, db3) =>
             restaurantRepository_save
               (mkRestaurant None (cr_name dto) (cr_description dto)
                  urls.1.1 urls.1.2 urls.2 APPROVED
                  (cr_openTime dto) (cr_closeTime dto)
                  (parse_coordinate parseFloat (cr_latitude dto))
                  (parse_coordinate parseFloat (cr_longitude dto))
                  (user_id u) (Some aid)) db3
         | (inl e, db3) =>
             if instanceof_BadRequestException e then (inl e, db3)
             else (inl (BadRequestException ("Failed to create restaurant: " ++ message e)), db3)
         end.
Proof.
  intros Ht Hu.
  destruct (locate_address_returns dto ad (addressRepository_create ad) db)
    as (a & lines & Hloc & Hid & Hsp & Hno).
  exists (with_address_id (fresh (dom (addresses db))) a), lines, (fresh (dom (addresses db))).
  split; [apply fresh_address_key |]. split; [done |].
  split; [destruct Hsp as (? & ? & ? & ?); by repeat split |].
  split.
  { intros Hs Hg. rewrite (Hno Hs Hg). done. }
  unfold requestRestaurantWithFiles, try_catch, bind, userRepository_findOne.
  rewrite Ht. simpl. rewrite Hu, Hloc.
  unfold addressRepository_save. rewrite Hid. simpl.
  destruct (upload_new_files fa fb fc _) as [[e | urls] db3].
  - by destruct (instanceof_BadRequestException e).
  - unfold restaurantRepository_save. done.
Qed.

Lemma uploads_pass_or_fail (fa fb fc : option File) :
  all_uploads_pass fa fb fc \/ some_upload_fails fa fb fc.
Proof.
  unfold all_uploads_pass, some_upload_fails.
  destruct (upload_passes_or_fails fa "restaurant-avatars");
    destruct (upload_passes_or_fails fb "restaurant-backgrounds");
    destruct (upload_passes_or_fails fc "restaurant-certificates"); tauto.
Qed.

Lemma geocoding_unavailable_no_result (ad : AddressData) :
  geocoding_unavailable ad -> forall c, geocode ad <> inr (Some c).
Proof. intros [[e He] | He] c; congruence. Qed.

(** The call when every upload goes through. *)
Lemma requestRestaurantWithFiles_passes db dto (ad : AddressData) (fa fb fc : option File) :
  owner_exists db dto ->
  all_uploads_pass fa fb fc ->
  exists r db' aid a,
    requestRestaurantWithFiles parseFloat dto ad fa fb fc db = (inr r, db')
    /\ status r = APPROVED
    /\ newly_persisted db db' r
    /\ address r = Some aid
    /\ addresses db !! aid = None
    /\ addresses db' !! aid = Some a
    /\ same_place (addressRepository_create ad) a
    /\ (coordinates_supplied dto = false ->
        (forall c, geocode ad <> inr (Some c)) ->
        address_latitude a = None /\ address_longitude a = None).
Proof.
  intros [Ht [u Hu]] (Ha & Hb & Hc).
  destruct (requestRestaurantWithFiles_unfold db dto ad fa fb fc u Ht Hu)
    as (a & lines & aid & Hfresh & Hid & Hsp & Hno & ->).
  destruct (upload_new_files_passes fa fb fc
              (set_addresses (<[aid := a]> (addresses db)) (add_log lines db)) Ha Hb Hc)
    as [urls ->].
  match goal with |- context [restaurantRepository_save ?r ?d] =>
    destruct (save_new_restaurant d r eq_refl) as (i & Hi & ->) end.
  do 2 eexists. exists aid, a. split; [reflexivity |]. simpl in *.
  split; [done |]. split.
  { exists i. simpl. split; [done |]. split; [done |]. by rewrite lookup_insert_eq. }
  split; [done |]. split; [done |]. split; [by rewrite lookup_insert_eq |]. done.
Qed.

(** The call when an upload is rejected. *)
Lemma requestRestaurantWithFiles_fails db dto (ad : AddressData) (fa fb fc : option File) :
  owner_exists db dto ->
  some_upload_fails fa fb fc ->
  exists e lines aid a,
    requestRestaurantWithFiles parseFloat dto ad fa fb fc db
    = (inl (BadRequestException ("File upload failed: " ++ message e)),
       add_log lines (set_addresses (<[aid := a]> (addresses db)) db))
    /\ addresses db !! aid = None
    /\ address_id a = Some aid
    /\ same_place (addressRepository_create ad) a.
Proof.
  intros [Ht [u Hu]] Hf.
  destruct (requestRestaurantWithFiles_unfold db dto ad fa fb fc u Ht Hu)
    as (a & lines & aid & Hfresh & Hid & Hsp & Hno & ->).
  destruct (upload_new_files_fails fa fb fc
              (set_addresses (<[aid := a]> (addresses db)) (add_log lines db)) Hf)
    as [e ->].
  simpl. exists e, (lines ++ [(ERROR, "Error uploading files:")])%list, aid, a.
  split; [| done]. f_equal. unfold add_log, set_addresses. simpl. by rewrite app_assoc.
Qed.

(** The call for a DTO that names no stored owner. *)
Lemma requestRestaurantWithFiles_no_owner db dto (ad : AddressData) (fa fb fc : option File) :
  ~ owner_exists db dto ->
  exists m,
    requestRestaurantWithFiles parseFloat dto ad fa fb fc db = (inl (BadRequestException m), db).
Proof.
  intros Hno. unfold requestRestaurantWithFiles, try_catch, bind, userRepository_findOne.
  destruct (Js.truthy (cr_ownerId dto)) eqn:Ht; simpl; [| by eexists].
  destruct (users db !! default "" (cr_ownerId dto)) as [u |] eqn:Hu; simpl; [| by eexists].
  destruct Hno. split; [done | by eexists].
Qed.

Lemma owner_exists_dec db dto : owner_exists db dto \/ ~ owner_exists db dto.
Proof.
  unfold owner_exists.
  destruct (Js.truthy (cr_ownerId dto)); [| right; intros [? ?]; done].
  destruct (users db !! default "" (cr_ownerId dto)) as [u |].
  - left. split; [done | by eexists].
  - right. intros [_ [? ?]]. done.
Qed.

(** C3. For a DTO whose owner is stored, [requestRestaurant] persists a
    new restaurant with status PENDING, [create] persists one with status
    APPROVED, and [requestRestaurantWithFiles] returns once its uploads go
    through and every restaurant it returns is newly persisted with status
    APPROVED. *)
Theorem creation_paths_initial_status db dto :
  owner_exists db dto ->
  (exists r db', requestRestaurant parseFloat dto db = (inr r, db')
                 /\ status r = PENDING /\ newly_persisted db db' r)
  /\ (exists r db', create parseFloat dto db = (inr r, db')
                    /\ status r = APPROVED /\ newly_persisted db db' r)
  /\ (forall (ad : AddressData) (fa fb fc : option File),
        (all_uploads_pass fa fb fc ->
         returns (requestRestaurantWithFiles parseFloat dto ad fa fb fc db))
        /\ (forall r,
              (requestRestaurantWithFiles parseFloat dto ad fa fb fc db).1 = inr r ->
              status r = APPROVED
              /\ newly_persisted db
                   (requestRestaurantWithFiles parseFloat dto ad fa fb fc db).2 r)).
Proof.
  intros Ho. split; [by apply requestRestaurant_spec |].
  split; [by apply create_spec |].
  intros ad fa fb fc. split.
  - intros Hp.
    destruct (requestRestaurantWithFiles_passes db dto ad fa fb fc Ho Hp)
      as (r & db' & ? & ? & -> & _). by exists r.
  - intros r Hr. destruct (uploads_pass_or_fail fa fb fc) as [Hp | Hf].
    + destruct (requestRestaurantWithFiles_passes db dto ad fa fb fc Ho Hp)
        as (r' & db' & ? & ? & Heq & Hs & Hn & _).
      rewrite Heq in Hr |- *. simpl in *. by injection Hr as <-.
    + destruct (requestRestaurantWithFiles_fails db dto ad fa fb fc Ho Hf)
        as (e & ? & ? & ? & Heq & _).
      rewrite Heq in Hr. done.
Qed.

(** C6. When the upload of a provided avatar, background or certificate
    file is rejected, [requestRestaurantWithFiles] throws a
    [BadRequestException] and the restaurant table is what it was: no
    restaurant row is written. *)
Theorem upload_failure_aborts_creation db dto (ad : AddressData) (fa fb fc : option File) :
  some_upload_fails fa fb fc ->
  throws (requestRestaurantWithFiles parseFloat dto ad fa fb fc db)
  /\ (exists m, (requestRestaurantWithFiles parseFloat dto ad fa fb fc db).1
                = inl (BadRequestException m))
  /\ restaurants (requestRestaurantWithFiles parseFloat dto ad fa fb fc db).2
     = restaurants db.
Proof.
  intros Hf. destruct (owner_exists_dec db dto) as [Ho | Hno].
  - destruct (requestRestaurantWithFiles_fails db dto ad fa fb fc Ho Hf)
      as (e & ? & ? & ? & -> & _).
    split; [by eexists |]. split; [by eexists | done].
  - destruct (requestRestaurantWithFiles_no_owner db dto ad fa fb fc Hno) as [m ->].
    split; [by eexists |]. split; [by eexists | done].
Qed.

(** C7. With a stored owner and uploads that go through, when the caller
    gives no coordinates and geocoding throws or has no result,
    [requestRestaurantWithFiles] still returns: the restaurant is newly
    persisted and refers to a stored address whose latitude and longitude
    are null. *)
Theorem geocoding_failure_keeps_creation db dto (ad : AddressData) (fa fb fc : option File) :
  owner_exists db dto ->
  all_uploads_pass fa fb fc ->
  coordinates_supplied dto = false ->
  geocoding_unavailable ad ->
  exists r db' aid a,
    requestRestaurantWithFiles parseFloat dto ad fa fb fc db = (inr r, db')
    /\ newly_persisted db db' r
    /\ address r = Some aid
    /\ addresses db' !! aid = Some a
    /\ same_place (addressRepository_create ad) a
    /\ address_latitude a = None
    /\ address_longitude a = None.
Proof.
  intros Ho Hp Hs Hg.
  destruct (requestRestaurantWithFiles_passes db dto ad fa fb fc Ho Hp)
    as (r & db' & aid & a & Heq & _ & Hn & Ha & _ & Hl & Hsp & Hnull).
  destruct (Hnull Hs (geocoding_unavailable_no_result ad Hg)) as [Hlat Hlng].
  exists r, db', aid, a. done.
Qed.

(** C10. With a stored owner, when an upload is rejected the call throws
    and writes no restaurant, yet the address saved before the uploads is
    still stored: the address table is the old one plus that one row. *)
Theorem upload_failure_keeps_address db dto (ad : AddressData) (fa fb fc : option File) :
  owner_exists db dto ->
  some_upload_fails fa fb fc ->
  throws (requestRestaurantWithFiles parseFloat dto ad fa fb fc db)
  /\ restaurants (requestRestaurantWithFiles parseFloat dto ad fa fb fc db).2
     = restaurants db
  /\ exists aid a,
       addresses db !! aid = None
       /\ addresses (requestRestaurantWithFiles parseFloat dto ad fa fb fc db).2
          = <[aid := a]> (addresses db)
       /\ addresses (requestRestaurantWithFiles parseFloat dto ad fa fb fc db).2 !! aid
          = Some a
       /\ address_id a = Some aid
       /\ same_place (addressRepository_create ad) a.
Proof.
  intros Ho Hf.
  destruct (requestRestaurantWithFiles_fails db dto ad fa fb fc Ho Hf)
    as (e & lines & aid & a & -> & Hfresh & Hid & Hsp).
  split; [by eexists |]. split; [done |]. exists aid, a. simpl.
  split; [done |]. split; [done |]. split; [by rewrite lookup_insert_eq | done].
Qed.

End Creation.

Lemma sample_owner_exists : owner_exists Sample.db Sample.dto.
Proof. split; [reflexivity | by eexists]. Qed.

Lemma sample_upload_fails :
  some_upload_fails (gcs := Sample.bucket_down) (Some Sample.avatarFile) None None.
Proof. left. by exists Sample.avatarFile, (Error "bucket unavailable"). Qed.

Lemma sample_uploads_pass :
  all_uploads_pass (gcs := Sample.bucket_no_delete) (Some Sample.avatarFile) None None.
Proof.
  split; [| split]; intros f Hf; [| done | done].
  by exists ("restaurant-avatars/" ++ originalname f).
Qed.

Lemma creation_paths_initial_status_witness :
  owner_exists Sample.db Sample.dto
  /\ exists r db',
       RestaurantService.requestRestaurant Sample.parseFloat Sample.dto Sample.db = (inr r, db')
       /\ status r = PENDING /\ newly_persisted Sample.db db' r.
Proof.
  split; [exact sample_owner_exists |].
  apply (creation_paths_initial_status Sample.parseFloat
           (geocodingService := Sample.geocoding_down) (gcsService := Sample.bucket_down)
           Sample.db Sample.dto sample_owner_exists).
Defined.

Lemma upload_failure_aborts_creation_witness :
  some_upload_fails (gcs := Sample.bucket_down) (Some Sample.avatarFile) None None
  /\ restaurants
       (RestaurantService.requestRestaurantWithFiles Sample.parseFloat
          (geocodingService := Sample.geocoding_down) (gcsService := Sample.bucket_down)
          Sample.dto Sample.addressData (Some Sample.avatarFile) None None Sample.db).2
     = restaurants Sample.db.
Proof.
  split; [exact sample_upload_fails |].
  apply (upload_failure_aborts_creation Sample.parseFloat
           (geocodingService := Sample.geocoding_down) (gcsService := Sample.bucket_down)
           Sample.db Sample.dto Sample.addressData (Some Sample.avatarFile) None None
           sample_upload_fails).
Defined.

Lemma geocoding_failure_keeps_creation_witness :
  owner_exists Sample.db Sample.dto
  /\ all_uploads_pass (gcs := Sample.bucket_no_delete) (Some Sample.avatarFile) None None
  /\ coordinates_supplied Sample.dto = false
  /\ geocoding_unavailable (geo := Sample.geocoding_down) Sample.addressData
  /\ returns
       (RestaurantService.requestRestaurantWithFiles Sample.parseFloat
          (geocodingService := Sample.geocoding_down) (gcsService := Sample.bucket_no_delete)
          Sample.dto Sample.addressData (Some Sample.avatarFile) None None Sample.db).
Proof.
  assert (Hg : geocoding_unavailable (geo := Sample.geocoding_down) Sample.addressData)
    by (left; by eexists).
  split; [exact sample_owner_exists |]. split; [exact sample_uploads_pass |].
  split; [reflexivity |]. split; [exact Hg |].
  destruct (geocoding_failure_keeps_creation Sample.parseFloat
              (geocodingService := Sample.geocoding_down)
              (gcsService := Sample.bucket_no_delete)
              Sample.db Sample.dto Sample.addressData (Some Sample.avatarFile) None None
              sample_owner_exists sample_uploads_pass eq_refl Hg)
    as (r & db' & aid & a & Heq & _).
  exists r. by rewrite Heq.
Defined.

Lemma upload_failure_keeps_address_witness :
  owner_exists Sample.db Sample.dto
  /\ some_upload_fails (gcs := Sample.bucket_down) (Some Sample.avatarFile) None None
  /\ exists aid a,
       addresses Sample.db !! aid = None
       /\ addresses
            (RestaurantService.requestRestaurantWithFiles Sample.parseFloat
               (geocodingService := Sample.geocoding_down) (gcsService := Sample.bucket_down)
               Sample.dto Sample.addressData (Some Sample.avatarFile) None None Sample.db).2
          !! aid = Some a.
Proof.
  split; [exact sample_owner_exists |]. split; [exact sample_upload_fails |].
  destruct (upload_failure_keeps_address Sample.parseFloat
              (geocodingService := Sample.geocoding_down) (gcsService := Sample.bucket_down)
              Sample.db Sample.dto Sample.addressData (Some Sample.avatarFile) None None
              sample_owner_exists sample_upload_fails)
    as (_ & _ & aid & a & Hnone & _ & Hsome & _).
  by exists aid, a.
Defined.

(** ** Users *)

Section Users.

Context {number : Type}.
Context {bcrypt : Bcrypt}.

Implicit Types (db : Db number) (u : User).

Import UsersService.

(** Whatever was stored, the row written by [save] has the password, the
    role and the id of the entity saved. *)
Lemma usersRepository_save_row db u :
  exists row,
    usersRepository_save (number := number) u db
    = (inr u, set_users (<[user_id u := row]> (users db)) db)
    /\ password row = password u /\ role row = role u /\ user_id row = user_id u.
Proof.
  unfold usersRepository_save. destruct (users db !! user_id u) as [stored |]; by eexists.
Qed.

Lemma getMe_found db i u :
  users db !! i = Some u -> getMe i db = (inr u, db).
Proof.
  intros H. unfold getMe, bind, usersRepository_findOne, userRepository_findOne.
  simpl. by rewrite H.
Qed.

Lemma Object_assign_without_role u (dto : UpdateUserDto) :
  role (Object_assign u (hash_password_if_given (without_role dto))) = role u
  /\ user_id (Object_assign u (hash_password_if_given (without_role dto))) = user_id u.
Proof.
  unfold hash_password_if_given, without_role. simpl.
  by destruct (Js.truthy (uu_password dto)).
Qed.

(** C9. For a stored user and any update DTO, [updateMe] returns a user
    with the role the stored user had, and the row it writes under the
    user's id has that role too, whatever [role] the payload carried. *)
Theorem updateMe_keeps_role db i u (dto : UpdateUserDto) :
  keyed db ->
  users db !! i = Some u ->
  exists u' row,
    (updateMe i dto db).1 = inr u'
    /\ role u' = role u
    /\ users (updateMe i dto db).2 !! i = Some row
    /\ role row = role u.
Proof.
  intros (_ & _ & Hk) Hu. pose proof (Hk _ _ Hu) as Hid. simpl in Hid.
  unfold updateMe, bind. rewrite (getMe_found _ _ _ Hu).
  destruct (Object_assign_without_role u dto) as [Hrole Hkey].
  destruct (usersRepository_save_row db
              (Object_assign u (hash_password_if_given (without_role dto))))
    as (row & -> & _ & Hr & _).
  exists (Object_assign u (hash_password_if_given (without_role dto))), row. simpl.
  split; [done |]. split; [done |]. rewrite Hid.
  split; [by rewrite lookup_insert_eq | congruence].
Qed.

Lemma rolesRepository_findOne_default db :
  has_default_role db ->
  exists ro,
    rolesRepository_findOne_name (number := number) DefaultRole_USER db = (inr (Some ro), db).
Proof.
  intros (i & ro & Hro & Hname). unfold rolesRepository_findOne_name.
  destruct (List.find _ (map_to_list (roles db))) as [[j ro'] |] eqn:Hfind; [by eexists |].
  exfalso. pose proof (find_none _ _ Hfind (i, ro)) as Hnone. simpl in Hnone.
  rewrite bool_decide_eq_true_2 in Hnone by done.
  assert (In (i, ro) (map_to_list (roles db))) as Hin
    by (apply list_elem_of_In, elem_of_map_to_list; done).
  specialize (Hnone Hin). done.
Qed.

(** What saving a freshly built user does to the table, by whether its id
    is taken. *)
Lemma usersRepository_save_effect db u :
  exists row,
    usersRepository_save (number := number) u db
    = (inr u, set_users (<[user_id u := row]> (users db)) db)
    /\ password row = password u
    /\ (users db !! user_id u = None ->
        one_new_user db (set_users (<[user_id u := row]> (users db)) db) u)
    /\ (is_Some (users db !! user_id u) ->
        dom (<[user_id u := row]> (users db)) = dom (users db)
        /\ size (<[user_id u := row]> (users db)) = size (users db)).
Proof.
  unfold usersRepository_save, one_new_user.
  destruct (users db !! user_id u) as [stored |] eqn:Hu.
  - exists (merge_user stored u). split; [done |]. split; [done |].
    split; [done |]. intros _. split.
    + apply dom_insert_lookup_L. by eexists.
    + apply map_size_insert_Some. by eexists.
  - exists u. split; [done |]. split; [done |]. split.
    + intros _. simpl. split; [done |]. split; [done |]. by apply map_size_insert_None.
    + intros [? ?]. done.
Qed.

(** C5, as the code has it. Under a bcrypt whose digest differs from its
    input, [create] (for a stored role) and [register] (with the default
    role stored) return a user and store under its id a row whose password
    is the bcrypt digest of the DTO's password, not the plaintext.  The
    row is the one new user entity when no stored user has that id; when
    one has, its row is updated and the table gains no row. *)
Theorem create_register_store_digest db (dto : CreateUserDto) (uuidv4 : string)
    (i : option string) :
  (forall data, bcrypt_hash data 10 <> data) ->
  (is_Some (roles db !! cu_role dto) ->
   exists u row,
     (create uuidv4 dto db).1 = inr u
     /\ user_id u = Js.substring0 28 uuidv4
     /\ users (create uuidv4 dto db).2 !! user_id u = Some row
     /\ password row = bcrypt_hash (cu_password dto) 10
     /\ password row <> cu_password dto
     /\ (users db !! user_id u = None -> one_new_user db (create uuidv4 dto db).2 u)
     /\ (is_Some (users db !! user_id u) ->
         dom (users (create uuidv4 dto db).2) = dom (users db)
         /\ size (users (create uuidv4 dto db).2) = size (users db)))
  /\ (has_default_role db ->
      exists u row,
        (register uuidv4 dto i db).1 = inr u
        /\ user_id u = register_id uuidv4 i
        /\ users (register uuidv4 dto i db).2 !! user_id u = Some row
        /\ password row = bcrypt_hash (cu_password dto) 10
        /\ password row <> cu_password dto
        /\ (users db !! user_id u = None -> one_new_user db (register uuidv4 dto i db).2 u)
        /\ (is_Some (users db !! user_id u) ->
            dom (users (register uuidv4 dto i db).2) = dom (users db)
            /\ size (users (register uuidv4 dto i db).2) = size (users db))).
Proof.
  intros Hdigest. split.
  - intros [ro Hro].
    unfold create, try_catch, bind, rolesRepository_findOne_id. simpl. rewrite Hro.
    match goal with |- context [usersRepository_save ?u db] =>
      destruct (usersRepository_save_effect db u) as (row & -> & Hpw & Hnew & Hold);
      exists u, row end.
    simpl in *. split; [done |]. split; [done |].
    split; [by rewrite lookup_insert_eq |]. split; [done |].
    split; [rewrite Hpw; apply Hdigest |]. done.
  - intros Hrole. destruct (rolesRepository_findOne_default db Hrole) as [ro Hfind].
    unfold register, bind. rewrite Hfind.
    match goal with |- context [usersRepository_save ?u db] =>
      destruct (usersRepository_save_effect db u) as (row & -> & Hpw & Hnew & Hold);
      exists u, row end.
    simpl in *. split; [done |].
    split; [unfold register_id; by destruct (Js.truthy i) |].
    split; [by rewrite lookup_insert_eq |]. split; [done |].
    split; [rewrite Hpw; apply Hdigest |]. done.
Qed.

End Users.

Lemma string_length_append (s t : string) :
  String.length (s ++ t) = (String.length s + String.length t)%nat.
Proof. induction s as [| c s IH]; simpl; [done | by rewrite IH]. Qed.

Lemma toy_bcrypt_digest_differs (data : string) :
  bcrypt_hash (Bcrypt := Sample.toy_bcrypt) data 10 <> data.
Proof.
  simpl. intros Heq. apply (f_equal String.length) in Heq.
  rewrite string_length_append in Heq. simpl in Heq. lia.
Qed.

Lemma sample_has_default_role : has_default_role Sample.db.
Proof. exists "role-user", Sample.role_user. split; reflexivity. Qed.

Lemma create_register_store_digest_witness :
  (forall data, bcrypt_hash (Bcrypt := Sample.toy_bcrypt) data 10 <> data)
  /\ is_Some (roles Sample.db !! cu_role Sample.userDto)
  /\ exists u row,
       (UsersService.create (bcrypt := Sample.toy_bcrypt) Sample.uuid Sample.userDto
          Sample.db).1 = inr u
       /\ users (UsersService.create (bcrypt := Sample.toy_bcrypt) Sample.uuid Sample.userDto
                   Sample.db).2 !! user_id u = Some row
       /\ password row <> "pw123".
Proof.
  split; [exact toy_bcrypt_digest_differs |].
  assert (Hrole : is_Some (roles Sample.db !! cu_role Sample.userDto)) by (by eexists).
  split; [exact Hrole |].
  destruct (create_register_store_digest (bcrypt := Sample.toy_bcrypt)
              Sample.db Sample.userDto Sample.uuid None toy_bcrypt_digest_differs)
    as [Hcreate _].
  destruct (Hcreate Hrole) as (u & row & Hu & _ & Hrow & _ & Hne & _).
  by exists u, row.
Defined.

(** C5 as worded fails for [register]: called with the id of a stored
    user (and the default role stored), it adds no user entity, the table
    keeps its size. *)
Lemma register_stored_id_adds_no_user :
  has_default_role Sample.db
  /\ ~ (exists u,
        (UsersService.register (bcrypt := Sample.toy_bcrypt) Sample.uuid Sample.userDto
           (Some "u1") Sample.db).1 = inr u
        /\ size (users (UsersService.register (bcrypt := Sample.toy_bcrypt) Sample.uuid
                          Sample.userDto (Some "u1") Sample.db).2)
           = S (size (users Sample.db))).
Proof.
  split; [exact sample_has_default_role |].
  intros (u & _ & Hsize). vm_compute in Hsize. discriminate.
Qed.

Lemma updateMe_keeps_role_witness :
  keyed Sample.db
  /\ users Sample.db !! "u1" = Some Sample.alice
  /\ exists u' row,
       (UsersService.updateMe (bcrypt := Sample.toy_bcrypt) "u1"
          (mkUpdateUserDto None None (Some "pw") None (Some "role-admin")) Sample.db).1
       = inr u'
       /\ role u' = "role-user"
       /\ users (UsersService.updateMe (bcrypt := Sample.toy_bcrypt) "u1"
                   (mkUpdateUserDto None None (Some "pw") None (Some "role-admin"))
                   Sample.db).2 !! "u1" = Some row
       /\ role row = "role-user".
Proof.
  split; [exact sample_db_keyed |]. split; [reflexivity |].
  apply (updateMe_keeps_role (bcrypt := Sample.toy_bcrypt) Sample.db "u1" Sample.alice
           (mkUpdateUserDto None None (Some "pw") None (Some "role-admin"))
           sample_db_keyed eq_refl).
Defined.

(** ** Listings *)

Section Listings.

Context {number : Type}.

Implicit Types (db : Db number).

Import RestaurantService.

Lemma Math_ceil_div_ceiling (T P : Z) :
  0 < P -> ceiling_of (Js.Math_ceil_div T P) T P.
Proof.
  intros HP. unfold ceiling_of, Js.Math_ceil_div.
  pose proof (Z.div_mod (- T) P ltac:(lia)) as Hdm.
  pose proof (Z.mod_pos_bound (- T) P HP) as Hb.
  nia.
Qed.

(** Past the last page the window of rows is empty. *)
Lemma skip_take_beyond {A : Type} (rows : list A) (p P : Z) :
  0 < P -> Js.Math_ceil_div (Z.of_nat (length rows)) P < p ->
  skip_take ((p - 1) * P) P rows = [].
Proof.
  intros HP Hp. unfold skip_take.
  destruct (Math_ceil_div_ceiling (Z.of_nat (length rows)) P HP) as [_ Hle].
  rewrite skipn_all2; [by rewrite firstn_nil |]. nia.
Qed.

Lemma envelope_well_paginated {A : Type} (rows : list A) (p P : Z) :
  0 < P ->
  well_paginated (envelope (skip_take ((p - 1) * P) P rows) (Z.of_nat (length rows)) p P)
                 p P (Z.of_nat (length rows)).
Proof.
  intros HP. unfold well_paginated, envelope. simpl.
  repeat (split; [done |]).
  split; [by apply Math_ceil_div_ceiling |]. by apply skip_take_beyond.
Qed.

Lemma findAndCount_listing (cond : Restaurant number -> bool) db (p ps : option Z) :
  0 < default 10 ps ->
  lists_by_page
    (fun p ps =>
       found <- restaurantRepository_findAndCount cond
                  ((default 1 p - 1) * default 10 ps) (default 10 ps) ;;
       ret (envelope found.1 found.2 (default 1 p) (default 10 ps)))
    (restaurant_rows cond db) db p ps.
Proof.
  intros HP. unfold lists_by_page, bind, restaurantRepository_findAndCount, ret. simpl.
  eexists. split; [reflexivity |]. split; [reflexivity |].
  split; [by apply envelope_well_paginated |].
  intros q _. eexists. split; [reflexivity |]. done.
Qed.

(** C4. Each listing, asked for page [p] (1 when absent, at least 1) of a
    positive size [ps] (10 when absent), returns the envelope with that
    page and size, the window of matching rows as [items], their count as
    [totalItems] and that count divided by the size, rounded up, as
    [totalPages]; a page past [totalPages] has no items; and the totals
    are the same whatever page is asked for. *)
Theorem listings_paginate db (p ps : option Z) :
  1 <= default 1 p ->
  0 < default 10 ps ->
  lists_by_page findAll (restaurant_rows (fun _ => true) db) db p ps
  /\ lists_by_page findAllApproved
       (restaurant_rows (fun r => bool_decide (status r = APPROVED)) db) db p ps
  /\ lists_by_page getRestaurantRequests
       (restaurant_rows (fun r => bool_decide (status r = PENDING)) db) db p ps
  /\ lists_by_page getPreview (preview <$> restaurant_rows (fun _ => true) db) db p ps.
Proof.
  intros _ HP. split; [by apply findAndCount_listing |].
  split; [by apply findAndCount_listing |].
  split; [by apply findAndCount_listing |].
  unfold lists_by_page, getPreview, bind, queryBuilder_getCount, queryBuilder_getMany, ret.
  simpl. eexists. split; [reflexivity |]. split; [reflexivity |].
  assert (Hlen : length (preview <$> restaurant_rows (fun _ => true) db)
                 = length (restaurant_rows (fun _ => true) db)) by apply length_fmap.
  split.
  - rewrite <- Hlen. by apply envelope_well_paginated.
  - intros q _. eexists. split; [reflexivity |]. done.
Qed.

End Listings.

Lemma listings_paginate_witness :
  1 <= default 1 (Some 3)
  /\ 0 < default 10 (Some 2)
  /\ exists env,
       RestaurantService.findAll (Some 3) (Some 2) Sample.db = (inr env, Sample.db)
       /\ well_paginated env 3 2 3.
Proof.
  split; [simpl; lia |]. split; [reflexivity |].
  destruct (listings_paginate Sample.db (Some 3) (Some 2) ltac:(simpl; lia) eq_refl)
    as [(env & Heq & _ & Hwp & _) _].
  exists env. split; [exact Heq | exact Hwp].
Defined.

(** ** Updates with attachments *)

Section Updates.

Context {number : Type}.
Context {geocodingService : GeocodingService number}.
Context {gcsService : GoogleCloudStorageService}.

Implicit Types (db : Db number) (r : Restaurant number) (dto : UpdateRestaurantDto).

Import RestaurantService.

Lemma reassign_owner_returns db dto r :
  new_owner_exists db dto ->
  exists r', reassign_owner dto r db = (inr r', db)
    /\ restaurant_id r' = restaurant_id r
    /\ avatar r' = avatar r /\ backgroundImage r' = backgroundImage r
    /\ certificateImage r' = certificateImage r.
Proof.
  intros Ho. unfold reassign_owner, new_owner_exists in *.
  destruct (Js.truthy (ur_ownerId dto)); [| by eexists].
  destruct (Ho eq_refl) as [u Hu].
  unfold bind, userRepository_findOne. simpl. rewrite Hu. by eexists.
Qed.

Lemma update_address_returns db (ad : option AddressData) r :
  exists r' db', update_address ad r db = (inr r', db')
    /\ restaurants db' = restaurants db
    /\ restaurant_id r' = restaurant_id r
    /\ avatar r' = avatar r /\ backgroundImage r' = backgroundImage r
    /\ certificateImage r' = certificateImage r.
Proof.
  unfold update_address. destruct ad as [ad |]; [| by exists r, db].
  unfold bind.
  assert (exists existing,
            match address r with
            | Some a => addressRepository_findOne a
            | None => ret None
            end db = (inr existing, db)) as [existing ->]
    by (destruct (address r); by eexists).
  match goal with |- context [try_geocode ad ?a db] =>
    destruct (try_geocode_returns ad a db) as (a' & lines & -> & _) end.
  unfold addressRepository_save. simpl. by do 2 eexists.
Qed.

Lemma upload_replacements_passes db (fa fb fc : option File) r :
  all_uploads_pass fa fb fc ->
  exists r', upload_replacements fa fb fc r db = (inr r', db)
    /\ restaurant_id r' = restaurant_id r.
Proof.
  intros (Ha & Hb & Hc). unfold upload_replacements, bind.
  destruct (upload_if_provided_passes fa _ (avatar r) db Ha) as [ua ->].
  destruct (upload_if_provided_passes fb _ (backgroundImage r) db Hb) as [ub ->].
  destruct (upload_if_provided_passes fc _ (certificateImage r) db Hc) as [uc ->].
  by eexists.
Qed.

(** A deletion behind [.catch] returns whatever the bucket answers. *)
Lemma caught_deletion_returns db (b : bool) (url text : string) :
  exists lines,
    when b (promise_catch (await (deleteFile url))
              (fun err => logger WARN (text ++ message err))) db
    = (inr tt, add_log lines db).
Proof.
  destruct b; simpl; [| exists []; by rewrite add_log_nil].
  unfold promise_catch, try_catch, await, logger.
  destruct (deleteFile url) as [e | []].
  - by eexists [_].
  - exists []. by rewrite add_log_nil.
Qed.

(** X1. [updateWithAddressAndFiles] is best-effort on cleanup: with the
    restaurant stored, the owner resolvable and the uploads through, it
    returns the restaurant it stored, whatever the deletions answer. *)
Lemma updateWithAddressAndFiles_cleanup_best_effort
    db i r dto (ad : option AddressData) (fa fb fc : option File) :
  keyed db ->
  restaurants db !! i = Some r ->
  new_owner_exists db dto ->
  all_uploads_pass fa fb fc ->
  exists r' db',
    updateWithAddressAndFiles i dto ad fa fb fc db = (inr r', db')
    /\ restaurants db' !! i = Some r'.
Proof.
  intros (Hk & _ & _) Hr Ho Hp. pose proof (Hk _ _ Hr) as Hid. simpl in Hid.
  unfold updateWithAddressAndFiles. unfold bind at 1. rewrite (findOne_found _ _ _ Hr).
  unfold bind at 1.
  destruct (reassign_owner_returns db dto r Ho) as (r1 & -> & Hid1 & _).
  unfold bind at 1.
  destruct (update_address_returns db ad r1) as (r2 & db2 & -> & Hsame & Hid2 & _).
  unfold try_catch. unfold bind at 1.
  destruct (upload_replacements_passes db2 fa fb fc r2 Hp) as (r3 & -> & Hid3).
  unfold bind at 1. unfold restaurantRepository_save at 1. simpl.
  rewrite Hid3, Hid2, Hid1, Hid. simpl.
  unfold bind at 1.
  match goal with |- context [when ?b (promise_catch (await (deleteFile ?u))
                                         (fun err => logger WARN (?t ++ message err))) ?d] =>
    destruct (caught_deletion_returns d b u t) as (l1 & ->) end.
  unfold bind at 1.
  match goal with |- context [when ?b (promise_catch (await (deleteFile ?u))
                                         (fun err => logger WARN (?t ++ message err))) ?d] =>
    destruct (caught_deletion_returns d b u t) as (l2 & ->) end.
  unfold bind at 1.
  match goal with |- context [when ?b (promise_catch (await (deleteFile ?u))
                                         (fun err => logger WARN (?t ++ message err))) ?d] =>
    destruct (caught_deletion_returns d b u t) as (l3 & ->) end.
  simpl. do 2 eexists. split; [reflexivity |]. simpl. rewrite Hsame.
  by rewrite lookup_insert_eq.
Qed.



End Updates.

Lemma sample_keeps_owner : new_owner_exists Sample.db Sample.noChange.
Proof. intros Htruthy. discriminate Htruthy. Qed.


Lemma updateWithAddressAndFiles_cleanup_best_effort_witness :
  keyed Sample.db
  /\ restaurants Sample.db !! "r1" = Some Sample.joes
  /\ new_owner_exists Sample.db Sample.noChange
  /\ all_uploads_pass (gcs := Sample.bucket_no_delete) (Some Sample.avatarFile) None None
  /\ returns
       (RestaurantService.updateWithAddressAndFiles
          (geocodingService := Sample.geocoding_down) (gcsService := Sample.bucket_no_delete)
          "r1" Sample.noChange (Some Sample.addressData) (Some Sample.avatarFile) None None
          Sample.db).
Proof.
  split; [exact sample_db_keyed |]. split; [reflexivity |].
  split; [exact sample_keeps_owner |]. split; [exact sample_uploads_pass |].
  destruct (updateWithAddressAndFiles_cleanup_best_effort
              (geocodingService := Sample.geocoding_down)
              (gcsService := Sample.bucket_no_delete)
              Sample.db "r1" Sample.joes Sample.noChange (Some Sample.addressData)
              (Some Sample.avatarFile) None None
              sample_db_keyed eq_refl sample_keeps_owner sample_uploads_pass)
    as (r' & db' & Heq & _).
  exists r'. by rewrite Heq.
Defined.


(** C8 at a concrete call. The stored restaurant "r1" has an avatar; the
    bucket takes the new avatar and refuses to delete the old one.
    [updateWithFiles] writes the restaurant with the new avatar URL and
    then throws, where the claim has it return the updated restaurant. *)
Theorem updateWithFiles_cleanup_failure_at_sample :
  (RestaurantService.updateWithFiles (gcsService := Sample.bucket_no_delete)
     "r1" Sample.noChange (Some Sample.avatarFile) None None Sample.db).1
  = inl (BadRequestException "Failed to update restaurant: delete refused")
  /\ restaurants
       (RestaurantService.updateWithFiles (gcsService := Sample.bucket_no_delete)
          "r1" Sample.noChange (Some Sample.avatarFile) None None Sample.db).2 !! "r1"
     = Some (with_avatar (Some "restaurant-avatars/avatar.png") Sample.joes).
Proof. split; reflexivity. Qed.

(** The same call through [updateWithAddressAndFiles] returns the updated
    restaurant and logs the refused deletion. *)
Example updateWithAddressAndFiles_at_sample :
  (RestaurantService.updateWithAddressAndFiles
     (geocodingService := Sample.geocoding_down) (gcsService := Sample.bucket_no_delete)
     "r1" Sample.noChange None (Some Sample.avatarFile) None None Sample.db).1
  = inr (with_avatar (Some "restaurant-avatars/avatar.png") Sample.joes)
  /\ logged
       (RestaurantService.updateWithAddressAndFiles
          (geocodingService := Sample.geocoding_down) (gcsService := Sample.bucket_no_delete)
          "r1" Sample.noChange None (Some Sample.avatarFile) None None Sample.db).2
     = [(WARN, "Failed to delete old avatar: delete refused")].
Proof. split; reflexivity. Qed.

(** ** The services keep the tables well formed *)

Section Invariant.

Context {number : Type}.
Context (parseFloat : string -> number).
Context {geocodingService : GeocodingService number}.
Context {gcsService : GoogleCloudStorageService}.
Context {bcrypt : Bcrypt}.



End Invariant.

(** ** The services on the sample database *)

(** The scenario of the specification: a request is PENDING, approving it
    makes it APPROVED, approving it again throws. *)
Example request_then_approve_twice :
  exists r db1 r' db2,
    RestaurantService.requestRestaurant Sample.parseFloat Sample.dto Sample.db = (inr r, db1)
    /\ status r = PENDING
    /\ restaurant_id r = Some "0"
    /\ RestaurantService.approveRestaurant "0" db1 = (inr r', db2)
    /\ status r' = APPROVED
    /\ throws (RestaurantService.approveRestaurant "0" db2).
Proof.
  do 4 eexists. split; [reflexivity |]. split; [reflexivity |]. split; [reflexivity |].
  split; [reflexivity |]. split; [reflexivity |]. eexists. reflexivity.
Qed.

(** Three restaurants in pages of two: the second page holds one, the
    third none, and both report three items in two pages. *)
Example findAll_pages_of_two :
  (exists env, RestaurantService.findAll (Some 2) (Some 2) Sample.db = (inr env, Sample.db)
               /\ length (items env) = 1%nat /\ totalItems env = 3 /\ totalPages env = 2)
  /\ (exists env, RestaurantService.findAll (Some 3) (Some 2) Sample.db = (inr env, Sample.db)
                  /\ items env = [] /\ totalItems env = 3 /\ totalPages env = 2).
Proof. split; eexists; (split; [reflexivity |]); repeat split. Qed.

(** Without arguments a listing answers page 1 of size 10. *)
Example getRestaurantRequests_defaults :
  exists env, RestaurantService.getRestaurantRequests None None Sample.db = (inr env, Sample.db)
              /\ items env = [Sample.joes] /\ totalItems env = 1
              /\ page env = 1 /\ pageSize env = 10 /\ totalPages env = 1.
Proof. eexists. split; [reflexivity |]. repeat split. Qed.

(** Registering without an id stores the user under the first 28
    characters of the generated identifier, with the default role. *)
Example register_generates_id :
  (UsersService.register (bcrypt := Sample.toy_bcrypt) Sample.uuid Sample.userDto None
     Sample.db).1
  = inr (mkUser "3f2b8c1e-9d4a-4f6b-8a1c-5e7d" "alice" "a@x.com" "$2a$10$pw123"
           None "role-user" None None)
  /\ String.length "3f2b8c1e-9d4a-4f6b-8a1c-5e7d" = 28%nat
  /\ size (users (UsersService.register (bcrypt := Sample.toy_bcrypt) Sample.uuid
                    Sample.userDto None Sample.db).2) = 2%nat.
Proof. repeat split; vm_compute; reflexivity. Qed.

(** Deleting a pending request removes the row; an approved restaurant
    stays. *)
Example deleteRestaurantRequest_at_sample :
  restaurants (RestaurantService.deleteRestaurantRequest "r1" Sample.db).2 !! "r1" = None
  /\ (RestaurantService.deleteRestaurantRequest "r2" Sample.db).1
     = inl (BadRequestException "Restaurant with ID r2 is not a pending request")
  /\ restaurants (RestaurantService.deleteRestaurantRequest "r2" Sample.db).2 !! "r2"
     = Some Sample.pho.
Proof. repeat split. Qed.

(** * Further properties of the services *)

(** ** Restaurants: missing ids, removal, plain update, owner aggregates *)

Section MoreRestaurants.

Context {number : Type}.
Context {geocodingService : GeocodingService number}.
Context {gcsService : GoogleCloudStorageService}.

Implicit Types (db : Db number) (r : Restaurant number) (i : string)
  (dto : UpdateRestaurantDto).

Lemma set_restaurants_same db : set_restaurants (restaurants db) db = db.
Proof. by destruct db. Qed.

(** X4. For an id that is not stored, every operation that starts with
    [findOne] throws the plain [Error] of [findOne] and leaves the
    database as it was; the [NotFoundException] guards of the updates
    with files are never reached. *)
Theorem missing_restaurant_is_plain_Error db i dto (oad : option AddressData)
    (fa fb fc : option File) :
  restaurants db !! i = None ->
  RestaurantService.approveRestaurant i db
  = (inl (Error ("Restaurant with ID " ++ i ++ " not found")), db)
  /\ RestaurantService.rejectRestaurant i db
     = (inl (Error ("Restaurant with ID " ++ i ++ " not found")), db)
  /\ RestaurantService.deleteRestaurantRequest i db
     = (inl (Error ("Restaurant with ID " ++ i ++ " not found")), db)
  /\ RestaurantService.update i dto db
     = (inl (Error ("Restaurant with ID " ++ i ++ " not found")), db)
  /\ RestaurantService.updateWithFiles i dto fa fb fc db
     = (inl (Error ("Restaurant with ID " ++ i ++ " not found")), db)
  /\ RestaurantService.updateWithAddressAndFiles i dto oad fa fb fc db
     = (inl (Error ("Restaurant with ID " ++ i ++ " not found")), db).
Proof.
  intros Hmiss. pose proof (findOne_missing db i Hmiss) as Hf.
  repeat apply conj.
  - unfold RestaurantService.approveRestaurant, bind. by rewrite Hf.
  - unfold RestaurantService.rejectRestaurant, bind. by rewrite Hf.
  - by apply deleteRestaurantRequest_missing.
  - unfold RestaurantService.update. unfold bind at 1. by rewrite Hf.
  - unfold RestaurantService.updateWithFiles. unfold bind at 1. by rewrite Hf.
  - unfold RestaurantService.updateWithAddressAndFiles. unfold bind at 1. by rewrite Hf.
Qed.

(** X5. [remove] returns exactly when a row with the id is stored,
    whatever its status; the row is then gone and every other row is as
    before.  For an id that is not stored it throws an [Error] and the
    database is unchanged, so a second [remove] of the same id throws. *)
Theorem remove_iff_stored db i :
  (returns (RestaurantService.remove i db) <-> is_Some (restaurants db !! i))
  /\ restaurants (RestaurantService.remove i db).2 = delete i (restaurants db)
  /\ (restaurants db !! i = None ->
      RestaurantService.remove i db
      = (inl (Error ("Restaurant with ID " ++ i ++ " not found")), db))
  /\ (forall j, j <> i ->
      restaurants (RestaurantService.remove i db).2 !! j = restaurants db !! j)
  /\ throws (RestaurantService.remove i (RestaurantService.remove i db).2).
Proof.
  assert (Hgone : forall d : Db number, restaurants d !! i = None ->
            RestaurantService.remove i d
            = (inl (Error ("Restaurant with ID " ++ i ++ " not found")), d)).
  { intros d Hd. unfold RestaurantService.remove, bind, restaurantRepository_delete.
    rewrite Hd. simpl. rewrite delete_id by done. by rewrite set_restaurants_same. }
  assert (Hdel : restaurants (RestaurantService.remove i db).2 = delete i (restaurants db)).
  { unfold RestaurantService.remove, bind, restaurantRepository_delete.
    by destruct (restaurants db !! i). }
  split; [| split; [done | split; [apply Hgone | split]]].
  - destruct (restaurants db !! i) as [r |] eqn:Hr.
    + unfold RestaurantService.remove, bind, restaurantRepository_delete. rewrite Hr. simpl.
      split; [by eexists | intros _; by eexists].
    + rewrite (Hgone db Hr). split; [intros [? ?]; done | intros [? ?]; done].
  - intros j Hj. rewrite Hdel. by apply lookup_delete_ne.
  - rewrite Hgone; [by eexists |]. rewrite Hdel. apply lookup_delete_eq.
Qed.

(** X6. On a stored restaurant whose DTO keeps the owner or names a
    stored user, [update] returns the restaurant it writes under the same
    id: the owner is the named user when [ownerId] is given and the old
    one otherwise, and a field the DTO leaves out keeps its stored value
    while a field it carries replaces it. *)
Theorem update_merges_and_reassigns db i r dto :
  keyed db ->
  restaurants db !! i = Some r ->
  new_owner_exists db dto ->
  exists r',
    RestaurantService.update i dto db
    = (inr r', set_restaurants (<[i := r']> (restaurants db)) db)
    /\ restaurant_id r' = Some i
    /\ owner r' = (if Js.truthy (ur_ownerId dto) then default "" (ur_ownerId dto) else owner r)
    /\ name r' = (match ur_name dto with Some n => Some n | None => name r end)
    /\ description r'
       = (match ur_description dto with Some d => Some d | None => description r end)
    /\ openTime r' = (match ur_openTime dto with Some t => Some t | None => openTime r end)
    /\ closeTime r' = (match ur_closeTime dto with Some t => Some t | None => closeTime r end).
Proof.
  intros (Hk & _ & Hku) Hr Ho. pose proof (Hk _ _ Hr) as Hid. simpl in Hid.
  unfold RestaurantService.update. unfold bind at 1. rewrite (findOne_found _ _ _ Hr).
  unfold new_owner_exists in Ho. unfold bind at 1.
  destruct (Js.truthy (ur_ownerId dto)) eqn:Ht.
  - destruct (Ho eq_refl) as [u Hu]. pose proof (Hku _ _ Hu) as Hidu. simpl in Hidu.
    unfold bind, userRepository_findOne. simpl. rewrite Hu. simpl.
    unfold restaurantRepository_save. simpl. rewrite Hid. simpl.
    eexists. split; [reflexivity |]. simpl. rewrite Hidu.
    repeat split;
      by (destruct (ur_name dto), (ur_description dto), (ur_openTime dto), (ur_closeTime dto)).
  - simpl. unfold restaurantRepository_save. simpl. rewrite Hid. simpl.
    eexists. split; [reflexivity |]. simpl.
    repeat split;
      by (destruct (ur_name dto), (ur_description dto), (ur_openTime dto), (ur_closeTime dto)).
Qed.

(** X7. Every update path rejects an owner id that is not stored before
    it writes anything: [update] throws [Error], the two updates with
    files throw [BadRequestException], each with the message "Owner not
    found" and not wrapped, and the database is unchanged. *)
Theorem updates_reject_unknown_owner db i r dto (oad : option AddressData)
    (fa fb fc : option File) :
  restaurants db !! i = Some r ->
  new_owner_unknown db dto ->
  RestaurantService.update i dto db = (inl (Error "Owner not found"), db)
  /\ RestaurantService.updateWithFiles i dto fa fb fc db
     = (inl (BadRequestException "Owner not found"), db)
  /\ RestaurantService.updateWithAddressAndFiles i dto oad fa fb fc db
     = (inl (BadRequestException "Owner not found"), db).
Proof.
  intros Hr [Ht Hu]. pose proof (findOne_found db i r Hr) as Hf.
  assert (Hre : RestaurantService.reassign_owner dto r db
                = (inl (BadRequestException "Owner not found"), db)).
  { unfold RestaurantService.reassign_owner, bind, userRepository_findOne.
    rewrite Ht. simpl. by rewrite Hu. }
  repeat apply conj.
  - unfold RestaurantService.update. unfold bind at 1. rewrite Hf.
    unfold bind, userRepository_findOne. rewrite Ht. simpl. by rewrite Hu.
  - unfold RestaurantService.updateWithFiles. unfold bind at 1. rewrite Hf.
    unfold bind at 1. by rewrite Hre.
  - unfold RestaurantService.updateWithAddressAndFiles. unfold bind at 1. rewrite Hf.
    unfold bind at 1. by rewrite Hre.
Qed.

End MoreRestaurants.

(** ** Restaurants of an owner *)

Section Owners.

Context {number : Type}.

Implicit Types (db : Db number) (r : Restaurant number).

Lemma stored_restaurant_listed db r :
  In r (snd <$> map_to_list (restaurants db)) <-> exists i, restaurants db !! i = Some r.
Proof.
  rewrite <- list_elem_of_In, list_elem_of_fmap. split.
  - intros ([i r'] & -> & Hin). exists i. by apply elem_of_map_to_list.
  - intros [i Hi]. exists (i, r). split; [done |]. by apply elem_of_map_to_list.
Qed.

Lemma findByOwnerId_found db ownerId :
  owns_a_restaurant db ownerId ->
  exists r, RestaurantService.findByOwnerId ownerId db = (inr (Some r), db)
            /\ owner r = ownerId /\ exists i, restaurants db !! i = Some r.
Proof.
  intros (i & r & Hr & Ho).
  unfold RestaurantService.findByOwnerId, bind, restaurantRepository_findOne_owner. simpl.
  destruct (List.find _ (snd <$> map_to_list (restaurants db))) as [r' |] eqn:Hfind.
  - exists r'. apply find_some in Hfind as [Hin Hb].
    apply bool_decide_eq_true_1 in Hb. split; [done |]. split; [done |].
    by apply stored_restaurant_listed.
  - exfalso. pose proof (find_none _ _ Hfind r) as Hnone. simpl in Hnone.
    rewrite bool_decide_eq_true_2 in Hnone by done.
    assert (In r (snd <$> map_to_list (restaurants db))) as Hin
      by (apply stored_restaurant_listed; by exists i).
    specialize (Hnone Hin). done.
Qed.

Lemma findByOwnerId_none db ownerId :
  ~ owns_a_restaurant db ownerId ->
  RestaurantService.findByOwnerId ownerId db = (inr None, db).
Proof.
  intros Hno.
  unfold RestaurantService.findByOwnerId, bind, restaurantRepository_findOne_owner. simpl.
  destruct (List.find _ (snd <$> map_to_list (restaurants db))) as [r' |] eqn:Hfind; [| done].
  exfalso. apply find_some in Hfind as [Hin Hb]. apply bool_decide_eq_true_1 in Hb.
  apply stored_restaurant_listed in Hin as [i Hi]. apply Hno. by exists i, r'.
Qed.

(** X8. [findByOwnerId] returns a stored restaurant of the owner when
    there is one and null otherwise.  The two owner aggregates are not
    implemented: they return 0 for an owner with a restaurant, whatever
    the [month] and whatever orders exist, throw an [Error] for an owner
    without one, and never change the database. *)
Theorem owner_aggregates_return_zero db (ownerId : string) (month : option string) :
  (owns_a_restaurant db ownerId ->
   (exists r, RestaurantService.findByOwnerId ownerId db = (inr (Some r), db)
              /\ owner r = ownerId /\ exists i, restaurants db !! i = Some r)
   /\ RestaurantService.getOrderCountByOwner ownerId month db = (inr 0, db)
   /\ RestaurantService.getRevenueByOwner ownerId month db = (inr 0, db))
  /\ (~ owns_a_restaurant db ownerId ->
      RestaurantService.findByOwnerId ownerId db = (inr None, db)
      /\ RestaurantService.getOrderCountByOwner ownerId month db
         = (inl (Error "No restaurant found for this owner"), db)
      /\ RestaurantService.getRevenueByOwner ownerId month db
         = (inl (Error "No restaurant found for this owner"), db)).
Proof.
  split.
  - intros Ho. destruct (findByOwnerId_found db ownerId Ho) as (r & Hf & Hr).
    split; [by exists r |].
    unfold RestaurantService.getOrderCountByOwner, RestaurantService.getRevenueByOwner, bind.
    by rewrite Hf.
  - intros Hno. pose proof (findByOwnerId_none db ownerId Hno) as Hf.
    split; [done |].
    unfold RestaurantService.getOrderCountByOwner, RestaurantService.getRevenueByOwner, bind.
    by rewrite Hf.
Qed.

End Owners.

(** ** The review workflow over sequences of calls *)

Section Review.

Context {number : Type}.

Implicit Types (db : Db number) (r : Restaurant number) (i j : string).

(** A review call keeps the tables well formed. *)
Lemma review_step_keyed (c : ReviewCall) db : keyed db -> keyed (review_step c db).
Proof.
  assert (Ha : forall i, preserves_keyed (number := number)
                           (RestaurantService.approveRestaurant i))
    by (intros i; unfold RestaurantService.approveRestaurant, RestaurantService.findOne;
        keyed_walk).
  assert (Hr : forall i, preserves_keyed (number := number)
                           (RestaurantService.rejectRestaurant i))
    by (intros i; unfold RestaurantService.rejectRestaurant, RestaurantService.findOne;
        keyed_walk).
  assert (Hd : forall i, preserves_keyed (number := number)
                           (RestaurantService.deleteRestaurantRequest i))
    by (intros i; unfold RestaurantService.deleteRestaurantRequest, RestaurantService.findOne;
        keyed_walk).
  intros Hk. destruct c as [i | i | i]; simpl; [by apply Ha | by apply Hr | by apply Hd].
Qed.

(** A review call leaves a restaurant that is not PENDING as stored. *)
Lemma review_step_decided (c : ReviewCall) db i r :
  keyed db ->
  restaurants db !! i = Some r -> status r <> PENDING ->
  restaurants (review_step c db) !! i = Some r.
Proof.
  intros (Hk & _ & _) Hr Hs.
  assert (Hcase : forall j, j = i \/ j <> i) by (intros j; destruct (decide (j = i)); tauto).
  destruct c as [j | j | j]; simpl; destruct (Hcase j) as [-> | Hne].
  - by rewrite (approveRestaurant_not_pending _ _ _ Hr Hs).
  - destruct (restaurants db !! j) as [rj |] eqn:Hj.
    + destruct (decide (status rj = PENDING)) as [Hp | Hp].
      * rewrite (approveRestaurant_pending _ _ _ Hj (Hk _ _ Hj) Hp). simpl.
        by rewrite lookup_insert_ne.
      * by rewrite (approveRestaurant_not_pending _ _ _ Hj Hp).
    + unfold RestaurantService.approveRestaurant, bind. by rewrite (findOne_missing _ _ Hj).
  - by rewrite (rejectRestaurant_not_pending _ _ _ Hr Hs).
  - destruct (restaurants db !! j) as [rj |] eqn:Hj.
    + destruct (decide (status rj = PENDING)) as [Hp | Hp].
      * rewrite (rejectRestaurant_pending _ _ _ Hj (Hk _ _ Hj) Hp). simpl.
        by rewrite lookup_insert_ne.
      * by rewrite (rejectRestaurant_not_pending _ _ _ Hj Hp).
    + unfold RestaurantService.rejectRestaurant, bind. by rewrite (findOne_missing _ _ Hj).
  - by rewrite (deleteRestaurantRequest_not_pending _ _ _ Hr Hs).
  - destruct (restaurants db !! j) as [rj |] eqn:Hj.
    + destruct (decide (status rj = PENDING)) as [Hp | Hp].
      * rewrite (deleteRestaurantRequest_pending _ _ _ Hj Hp). simpl.
        by rewrite lookup_delete_ne.
      * by rewrite (deleteRestaurantRequest_not_pending _ _ _ Hj Hp).
    + by rewrite (deleteRestaurantRequest_missing _ _ Hj).
Qed.

(** X9. APPROVED and REJECTED are final for the review workflow: after
    any sequence of [approveRestaurant], [rejectRestaurant] and
    [deleteRestaurantRequest] calls, on any ids, a restaurant that was
    stored with one of these statuses is still stored, unchanged. *)
Theorem decided_restaurant_survives_review (cs : list ReviewCall) db i r :
  keyed db ->
  restaurants db !! i = Some r ->
  status r = APPROVED \/ status r = REJECTED ->
  restaurants (review_run cs db) !! i = Some r.
Proof.
  intros Hk Hr Hs. assert (Hnp : status r <> PENDING) by (destruct Hs; congruence).
  clear Hs. unfold review_run. revert db Hk Hr.
  induction cs as [| c cs IH]; intros db Hk Hr; simpl; [done |].
  apply IH; [by apply review_step_keyed | by apply review_step_decided].
Qed.

End Review.

Lemma decided_restaurant_survives_review_witness :
  keyed Sample.db
  /\ restaurants Sample.db !! "r2" = Some Sample.pho
  /\ (status Sample.pho = APPROVED \/ status Sample.pho = REJECTED)
  /\ restaurants
       (review_run [Reject "r2"; DeleteRequest "r2"; Approve "r1"; DeleteRequest "r3"]
          Sample.db) !! "r2" = Some Sample.pho.
Proof.
  split; [exact sample_db_keyed |]. split; [reflexivity |]. split; [by left |].
  apply (decided_restaurant_survives_review
           [Reject "r2"; DeleteRequest "r2"; Approve "r1"; DeleteRequest "r3"]
           Sample.db "r2" Sample.pho sample_db_keyed eq_refl (or_introl eq_refl)).
Defined.

Lemma missing_restaurant_is_plain_Error_witness :
  restaurants Sample.db !! "r9" = None
  /\ RestaurantService.updateWithFiles (gcsService := Sample.bucket_down)
       "r9" Sample.noChange None None None Sample.db
     = (inl (Error "Restaurant with ID r9 not found"), Sample.db).
Proof.
  split; [reflexivity |].
  apply (missing_restaurant_is_plain_Error
           (geocodingService := Sample.geocoding_down) (gcsService := Sample.bucket_down)
           Sample.db "r9" Sample.noChange None None None None eq_refl).
Defined.

Lemma sample_names_stored_owner : new_owner_exists Sample.db Sample.rename.
Proof. intros Htruthy. discriminate Htruthy. Qed.

Lemma update_merges_and_reassigns_witness :
  keyed Sample.db
  /\ restaurants Sample.db !! "r1" = Some Sample.joes
  /\ new_owner_exists Sample.db Sample.rename
  /\ exists r',
       RestaurantService.update "r1" Sample.rename Sample.db
       = (inr r', set_restaurants (<["r1" := r']> (restaurants Sample.db)) Sample.db)
       /\ name r' = Some "Joe's Diner" /\ owner r' = "u1".
Proof.
  split; [exact sample_db_keyed |]. split; [reflexivity |].
  split; [exact sample_names_stored_owner |].
  destruct (update_merges_and_reassigns Sample.db "r1" Sample.joes Sample.rename
              sample_db_keyed eq_refl sample_names_stored_owner)
    as (r' & Heq & _ & Ho & Hn & _).
  exists r'. split; [exact Heq |]. split; [exact Hn | exact Ho].
Defined.

Lemma sample_new_owner_unknown : new_owner_unknown Sample.db Sample.new_owner_gone.
Proof. split; reflexivity. Qed.

Lemma updates_reject_unknown_owner_witness :
  restaurants Sample.db !! "r1" = Some Sample.joes
  /\ new_owner_unknown Sample.db Sample.new_owner_gone
  /\ RestaurantService.update "r1" Sample.new_owner_gone Sample.db
     = (inl (Error "Owner not found"), Sample.db).
Proof.
  split; [reflexivity |]. split; [exact sample_new_owner_unknown |].
  apply (updates_reject_unknown_owner
           (geocodingService := Sample.geocoding_down) (gcsService := Sample.bucket_down)
           Sample.db "r1" Sample.joes Sample.new_owner_gone None None None None
           eq_refl sample_new_owner_unknown).
Defined.

(** ** Listings: what a page holds *)

Section Pages.

Context {number : Type}.

Implicit Types (db : Db number) (r : Restaurant number) (p ps : option Z).


Lemma skip_take_length {A : Type} (rows : list A) (p P : Z) :
  1 <= p -> 0 < P ->
  Z.of_nat (length (skip_take ((p - 1) * P) P rows))
  = Z.min P (Z.max 0 (Z.of_nat (length rows) - (p - 1) * P)).
Proof.
  intros Hp HP. unfold skip_take. rewrite length_take, length_drop.
  assert (0 <= (p - 1) * P) by nia. lia.
Qed.

(** Pages 1 to [n] of a list, one after the other, are its first [n]
    pages' worth of rows. *)
Lemma pages_concat {A : Type} (rows : list A) (P : Z) (n : nat) :
  0 < P ->
  flat_map (fun k => skip_take ((Z.of_nat k + 1 - 1) * P) P rows) (seq 0 n)
  = take (n * Z.to_nat P) rows.
Proof.
  intros HP. induction n as [| n IH]; [done |].
  rewrite seq_S, flat_map_app, IH. simpl. rewrite app_nil_r. unfold skip_take.
  replace (Z.to_nat ((Z.of_nat n + 1 - 1) * P)) with (n * Z.to_nat P)%nat by nia.
  rewrite take_take_drop. f_equal. lia.
Qed.

Lemma pages_cover {A : Type} (rows : list A) (P : Z) :
  0 < P ->
  flat_map (fun k => skip_take ((Z.of_nat k + 1 - 1) * P) P rows)
    (seq 0 (Z.to_nat (Js.Math_ceil_div (Z.of_nat (length rows)) P)))
  = rows.
Proof.
  intros HP. rewrite pages_concat by done. apply take_ge.
  destruct (Math_ceil_div_ceiling (Z.of_nat (length rows)) P HP) as [_ Hle]. nia.
Qed.



(** X11. For a page number of at least 1 and a positive page size, each
    listing returns min(pageSize, rows left from the page's offset)
    items: never more than the page size, a full page before the last
    page, and at least one item on every page up to [totalPages]. *)
Theorem listings_page_sized db p ps :
  1 <= default 1 p ->
  0 < default 10 ps ->
  (page_sized (RestaurantService.findAll p ps db) (default 1 p) (default 10 ps)
   /\ page_sized (RestaurantService.findAllApproved p ps db) (default 1 p) (default 10 ps)
   /\ page_sized (RestaurantService.getRestaurantRequests p ps db) (default 1 p) (default 10 ps)
   /\ page_sized (RestaurantService.getPreview p ps db) (default 1 p) (default 10 ps))
  /\ (forall (A : Type) (out : (Exception + Page A) * Db number),
        page_sized out (default 1 p) (default 10 ps) ->
        Z.of_nat (length (listed_items out)) <= default 10 ps
        /\ (default 1 p < Js.Math_ceil_div (listed_total out) (default 10 ps) ->
            Z.of_nat (length (listed_items out)) = default 10 ps)
        /\ (default 1 p <= Js.Math_ceil_div (listed_total out) (default 10 ps) ->
            listed_items out <> [])).
Proof.
  intros Hp HP. split.
  - unfold page_sized. repeat apply conj.
    + by apply skip_take_length.
    + by apply skip_take_length.
    + by apply skip_take_length.
    + unfold listed_items, listed_total, RestaurantService.getPreview, bind,
        RestaurantService.queryBuilder_getCount, RestaurantService.queryBuilder_getMany,
        ret, RestaurantService.envelope. simpl.
      rewrite <- (length_fmap RestaurantService.preview). by apply skip_take_length.
  - intros A out Hsz. unfold page_sized in Hsz.
    destruct (Math_ceil_div_ceiling (listed_total out) (default 10 ps) HP) as [Hlo Hhi].
    set (T := listed_total out) in *. set (P := default 10 ps) in *.
    set (q := default 1 p) in *. set (c := Js.Math_ceil_div T P) in *.
    split; [lia |]. split.
    + intros Hlt. rewrite Hsz. assert ((q - 1) * P + P <= (c - 1) * P) by nia. lia.
    + intros Hle Hnil. rewrite Hnil in Hsz. simpl in Hsz.
      assert ((q - 1) * P <= (c - 1) * P) by nia. lia.
Qed.

(** X12. For a positive page size, pages 1 to [totalPages] of a listing,
    taken one call after the other on the same database, hold every
    matching row exactly once and in the order of the table. *)
Theorem listings_pages_partition db (P : Z) :
  0 < P ->
  all_pages RestaurantService.findAll P
    (Z.to_nat (Js.Math_ceil_div
                 (listed_total (RestaurantService.findAll None (Some P) db)) P)) db
  = restaurant_rows (fun _ => true) db
  /\ all_pages RestaurantService.findAllApproved P
       (Z.to_nat (Js.Math_ceil_div
                    (listed_total (RestaurantService.findAllApproved None (Some P) db)) P)) db
     = restaurant_rows (fun r => bool_decide (status r = APPROVED)) db
  /\ all_pages RestaurantService.getRestaurantRequests P
       (Z.to_nat (Js.Math_ceil_div
                    (listed_total (RestaurantService.getRestaurantRequests None (Some P) db))
                    P)) db
     = restaurant_rows (fun r => bool_decide (status r = PENDING)) db
  /\ all_pages RestaurantService.getPreview P
       (Z.to_nat (Js.Math_ceil_div
                    (listed_total (RestaurantService.getPreview None (Some P) db)) P)) db
     = RestaurantService.preview <$> restaurant_rows (fun _ => true) db.
Proof.
  intros HP. repeat apply conj.
  - by apply (pages_cover (restaurant_rows (fun _ => true) db)).
  - by apply (pages_cover (restaurant_rows (fun r => bool_decide (status r = APPROVED)) db)).
  - by apply (pages_cover (restaurant_rows (fun r => bool_decide (status r = PENDING)) db)).
  - unfold all_pages, listed_items, listed_total, RestaurantService.getPreview, bind,
      RestaurantService.queryBuilder_getCount, RestaurantService.queryBuilder_getMany,
      ret, RestaurantService.envelope. simpl.
    rewrite <- (length_fmap RestaurantService.preview). by apply pages_cover.
Qed.

End Pages.

(** ** Listings: how the review workflow moves the totals *)

Section Totals.

Context {number : Type}.

Implicit Types (db : Db number) (r : Restaurant number) (i : string).

Lemma filter_length_Permutation {A : Type} (f : A -> bool) (l l' : list A) :
  l ≡ₚ l' -> length (List.filter f l) = length (List.filter f l').
Proof.
  induction 1 as [| x l l' _ IH | x y l | l1 l2 l3 _ IH1 _ IH2]; simpl.
  - done.
  - destruct (f x); simpl; by rewrite IH.
  - by destruct (f x), (f y).
  - by rewrite IH1.
Qed.

(** Rewriting the row of a key changes a count by what the row counts. *)
Lemma rows_count_insert (cond : Restaurant number -> bool) db i r r' :
  restaurants db !! i = Some r ->
  (length (restaurant_rows cond (set_restaurants (<[i := r']> (restaurants db)) db))
   + (if cond r then 1 else 0)
   = length (restaurant_rows cond db) + (if cond r' then 1 else 0))%nat.
Proof.
  intros Hr. unfold restaurant_rows. simpl.
  assert (P1 : map_to_list (<[i := r']> (restaurants db))
               ≡ₚ (i, r') :: map_to_list (delete i (restaurants db))).
  { rewrite <- insert_delete_eq. apply map_to_list_insert, lookup_delete_eq. }
  pose proof (map_to_list_delete (restaurants db) i r Hr) as P2.
  rewrite (filter_length_Permutation cond _ _ (fmap_Permutation snd _ _ P1)).
  rewrite <- (filter_length_Permutation cond _ _ (fmap_Permutation snd _ _ P2)).
  rewrite !fmap_cons. cbn [List.filter snd].
  destruct (cond r), (cond r'); cbn [length]; lia.
Qed.

Lemma rows_count_delete (cond : Restaurant number -> bool) db i r :
  restaurants db !! i = Some r ->
  (length (restaurant_rows cond (set_restaurants (delete i (restaurants db)) db))
   + (if cond r then 1 else 0)
   = length (restaurant_rows cond db))%nat.
Proof.
  intros Hr. unfold restaurant_rows. simpl.
  pose proof (map_to_list_delete (restaurants db) i r Hr) as P2.
  rewrite <- (filter_length_Permutation cond _ _ (fmap_Permutation snd _ _ P2)).
  rewrite fmap_cons. cbn [List.filter snd]. destruct (cond r); cbn [length]; lia.
Qed.

Lemma totals_are_counts db :
  pending_total db
  = Z.of_nat (length (restaurant_rows (fun r => bool_decide (status r = PENDING)) db))
  /\ approved_total db
     = Z.of_nat (length (restaurant_rows (fun r => bool_decide (status r = APPROVED)) db))
  /\ all_total db = Z.of_nat (length (restaurant_rows (fun _ => true) db)).
Proof. done. Qed.

(** X13. A review call on a stored PENDING restaurant moves it between
    the listings: approving takes one off the total of
    [getRestaurantRequests] and adds one to that of [findAllApproved],
    rejecting takes one off the requests and leaves the approved, both
    keep the total of [findAll]; deleting the request takes one off the
    requests and off [findAll]. *)
Theorem review_moves_totals db i r :
  keyed db ->
  restaurants db !! i = Some r ->
  status r = PENDING ->
  (pending_total (RestaurantService.approveRestaurant i db).2 = pending_total db - 1
   /\ approved_total (RestaurantService.approveRestaurant i db).2 = approved_total db + 1
   /\ all_total (RestaurantService.approveRestaurant i db).2 = all_total db)
  /\ (pending_total (RestaurantService.rejectRestaurant i db).2 = pending_total db - 1
      /\ approved_total (RestaurantService.rejectRestaurant i db).2 = approved_total db
      /\ all_total (RestaurantService.rejectRestaurant i db).2 = all_total db)
  /\ (pending_total (RestaurantService.deleteRestaurantRequest i db).2 = pending_total db - 1
      /\ approved_total (RestaurantService.deleteRestaurantRequest i db).2 = approved_total db
      /\ all_total (RestaurantService.deleteRestaurantRequest i db).2 = all_total db - 1).
Proof.
  intros (Hk & _ & _) Hr Hs. pose proof (Hk _ _ Hr) as Hid. simpl in Hid.
  rewrite (approveRestaurant_pending _ _ _ Hr Hid Hs),
          (rejectRestaurant_pending _ _ _ Hr Hid Hs),
          (deleteRestaurantRequest_pending _ _ _ Hr Hs). simpl.
  destruct (totals_are_counts db) as (-> & -> & ->).
  repeat match goal with
         | |- context [pending_total ?d] =>
             destruct (totals_are_counts d) as (-> & _ & _)
         | |- context [approved_total ?d] =>
             destruct (totals_are_counts d) as (_ & -> & _)
         | |- context [all_total ?d] =>
             destruct (totals_are_counts d) as (_ & _ & ->)
         end.
  pose proof (rows_count_insert (fun r => bool_decide (status r = PENDING))
                db i r (with_status APPROVED r) Hr) as A1.
  pose proof (rows_count_insert (fun r => bool_decide (status r = APPROVED))
                db i r (with_status APPROVED r) Hr) as A2.
  pose proof (rows_count_insert (fun _ => true) db i r (with_status APPROVED r) Hr) as A3.
  pose proof (rows_count_insert (fun r => bool_decide (status r = PENDING))
                db i r (with_status REJECTED r) Hr) as R1.
  pose proof (rows_count_insert (fun r => bool_decide (status r = APPROVED))
                db i r (with_status REJECTED r) Hr) as R2.
  pose proof (rows_count_insert (fun _ => true) db i r (with_status REJECTED r) Hr) as R3.
  pose proof (rows_count_delete (fun r => bool_decide (status r = PENDING)) db i r Hr) as D1.
  pose proof (rows_count_delete (fun r => bool_decide (status r = APPROVED)) db i r Hr) as D2.
  pose proof (rows_count_delete (fun _ => true) db i r Hr) as D3.
  simpl in *. rewrite Hs in *. simpl in *. lia.
Qed.

End Totals.

Lemma review_moves_totals_witness :
  keyed Sample.db
  /\ restaurants Sample.db !! "r1" = Some Sample.joes
  /\ status Sample.joes = PENDING
  /\ pending_total (RestaurantService.approveRestaurant "r1" Sample.db).2
     = pending_total Sample.db - 1
  /\ approved_total (RestaurantService.approveRestaurant "r1" Sample.db).2
     = approved_total Sample.db + 1.
Proof.
  split; [exact sample_db_keyed |]. split; [reflexivity |]. split; [reflexivity |].
  destruct (review_moves_totals Sample.db "r1" Sample.joes sample_db_keyed eq_refl eq_refl)
    as ((Hp & Ha & _) & _).
  split; [exact Hp | exact Ha].
Defined.

Lemma listings_page_sized_witness :
  1 <= default 1 (Some 2)
  /\ 0 < default 10 (Some 2)
  /\ page_sized (RestaurantService.findAll (Some 2) (Some 2) Sample.db) 2 2.
Proof.
  split; [simpl; lia |]. split; [reflexivity |].
  apply (listings_page_sized Sample.db (Some 2) (Some 2) ltac:(simpl; lia) eq_refl).
Defined.

Lemma listings_pages_partition_witness :
  0 < 2
  /\ all_pages RestaurantService.findAll 2
       (Z.to_nat (Js.Math_ceil_div
                    (listed_total (RestaurantService.findAll None (Some 2) Sample.db)) 2))
       Sample.db
     = restaurant_rows (fun _ => true) Sample.db.
Proof.
  split; [reflexivity |].
  apply (listings_pages_partition Sample.db 2 eq_refl).
Defined.

(** ** Creation: owners, address strings and coordinates *)

Section MoreCreation.

Context {number : Type}.
Context (parseFloat : string -> number).
Context {geocodingService : GeocodingService number}.
Context {gcsService : GoogleCloudStorageService}.

Implicit Types (db : Db number) (r : Restaurant number) (dto : CreateRestaurantDto).

(** X14. A creation DTO without an owner id, or with the id of a user
    that is not stored, is refused by the three creation paths before
    anything is written: [create] throws an [Error] with the reason
    behind "Failed to create restaurant: ", the two request paths throw a
    [BadRequestException] with the bare reason, and the database is
    unchanged. *)
Theorem creation_requires_owner db dto (ad : AddressData) (fa fb fc : option File) :
  ~ owner_exists db dto ->
  RestaurantService.create parseFloat dto db
  = (inl (Error ("Failed to create restaurant: "
                 ++ (if Js.truthy (cr_ownerId dto)
                     then "Owner not found" else "Owner ID is required"))), db)
  /\ RestaurantService.requestRestaurant parseFloat dto db
     = (inl (BadRequestException
               (if Js.truthy (cr_ownerId dto)
                then "Owner not found" else "Owner ID is required")), db)
  /\ RestaurantService.requestRestaurantWithFiles parseFloat dto ad fa fb fc db
     = (inl (BadRequestException
               (if Js.truthy (cr_ownerId dto)
                then "Owner not found" else "Owner ID is required")), db).
Proof.
  intros Hno. unfold owner_exists in Hno.
  unfold RestaurantService.create, RestaurantService.requestRestaurant,
    RestaurantService.requestRestaurantWithFiles, try_catch, bind, userRepository_findOne.
  destruct (Js.truthy (cr_ownerId dto)) eqn:Ht; simpl; [| done].
  destruct (users db !! default "" (cr_ownerId dto)) as [u |] eqn:Hu; simpl; [| done].
  destruct Hno. split; [done | by eexists].
Qed.

Lemma persist_new_restaurant_address db dto (u : User) (initial : RestaurantStatus) :
  exists r db',
    RestaurantService.persist_new_restaurant parseFloat dto u initial db = (inr r, db')
    /\ (Js.truthy (cr_address dto) = false ->
        address r = None /\ addresses db' = addresses db)
    /\ (Js.truthy (cr_address dto) = true ->
        exists aid,
          address r = Some aid
          /\ addresses db !! aid = None
          /\ addresses db'
             = <[aid := mkAddress (Some aid) (Some (default "" (cr_address dto)))
                          None None None None None]> (addresses db)).
Proof.
  unfold RestaurantService.persist_new_restaurant, bind.
  destruct (Js.truthy (cr_address dto)); simpl; do 2 eexists;
    (split; [reflexivity |]); simpl.
  - split; [done |]. intros _. eexists. split; [reflexivity |].
    split; [apply fresh_address_key | done].
  - split; [done |]. intros Hf. done.
Qed.

(** X15. With a stored owner, [create] and [requestRestaurant] write an
    address row only for a non-empty [address] string: the row is new,
    holds the string as its street and nothing else, and the restaurant
    refers to it; without the string the address table is unchanged and
    the restaurant has no address. *)
Theorem address_string_becomes_street db dto :
  owner_exists db dto ->
  (exists r db',
     RestaurantService.create parseFloat dto db = (inr r, db')
     /\ (Js.truthy (cr_address dto) = false ->
         address r = None /\ addresses db' = addresses db)
     /\ (Js.truthy (cr_address dto) = true ->
         exists aid,
           address r = Some aid
           /\ addresses db !! aid = None
           /\ addresses db'
              = <[aid := mkAddress (Some aid) (Some (default "" (cr_address dto)))
                           None None None None None]> (addresses db)))
  /\ (exists r db',
        RestaurantService.requestRestaurant parseFloat dto db = (inr r, db')
        /\ (Js.truthy (cr_address dto) = false ->
            address r = None /\ addresses db' = addresses db)
        /\ (Js.truthy (cr_address dto) = true ->
            exists aid,
              address r = Some aid
              /\ addresses db !! aid = None
              /\ addresses db'
                 = <[aid := mkAddress (Some aid) (Some (default "" (cr_address dto)))
                              None None None None None]> (addresses db))).
Proof.
  intros [Ht [u Hu]]. split.
  - unfold RestaurantService.create, try_catch, bind, userRepository_findOne.
    rewrite Ht. simpl. rewrite Hu.
    destruct (persist_new_restaurant_address db dto u APPROVED) as (r & db' & -> & H).
    by exists r, db'.
  - unfold RestaurantService.requestRestaurant, try_catch, bind, userRepository_findOne.
    rewrite Ht. simpl. rewrite Hu.
    destruct (persist_new_restaurant_address db dto u PENDING) as (r & db' & -> & H).
    by exists r, db'.
Qed.

(** [requestRestaurantWithFiles] once the address step is known. *)
Lemma requestRestaurantWithFiles_located db dto (ad : AddressData) (fa fb fc : option File)
    (a : Address number) (lines : list (LogLevel * string)) :
  owner_exists db dto ->
  all_uploads_pass fa fb fc ->
  RestaurantService.locate_address parseFloat dto ad (addressRepository_create ad) db
  = (inr a, add_log lines db) ->
  address_id a = None ->
  exists r db' aid,
    RestaurantService.requestRestaurantWithFiles parseFloat dto ad fa fb fc db = (inr r, db')
    /\ address r = Some aid
    /\ addresses db' !! aid = Some (with_address_id aid a)
    /\ logged db' = (logged db ++ lines)%list.
Proof.
  intros [Ht [u Hu]] (Ha & Hb & Hc) Hloc Hid.
  unfold RestaurantService.requestRestaurantWithFiles, try_catch.
  unfold bind at 1. rewrite Ht. simpl. unfold bind at 1. unfold userRepository_findOne.
  simpl. rewrite Hu. unfold bind at 1. rewrite Hloc.
  unfold bind at 1. unfold addressRepository_save at 1. rewrite Hid. simpl.
  unfold bind at 1.
  match goal with |- context [RestaurantService.upload_new_files fa fb fc ?d] =>
    destruct (upload_new_files_passes fa fb fc d Ha Hb Hc) as [urls ->] end.
  unfold restaurantRepository_save. simpl.
  do 2 eexists. exists (fresh (dom (addresses db))). split; [reflexivity |]. simpl.
  split; [done |]. split; [by rewrite lookup_insert_eq | done].
Qed.

(** X16. When the caller supplies both coordinates,
    [requestRestaurantWithFiles] does not consult the geocoding service:
    its outcome is the same under any geocoding service, and with a
    stored owner and uploads that go through the stored address holds the
    parsed coordinates of the caller and nothing is logged. *)
Theorem supplied_coordinates_bypass_geocoding db dto (ad : AddressData)
    (fa fb fc : option File) :
  coordinates_supplied dto = true ->
  (forall other : GeocodingService number,
     RestaurantService.requestRestaurantWithFiles parseFloat (geocodingService := other)
       dto ad fa fb fc db
     = RestaurantService.requestRestaurantWithFiles parseFloat dto ad fa fb fc db)
  /\ (owner_exists db dto ->
      all_uploads_pass fa fb fc ->
      exists r db' aid a,
        RestaurantService.requestRestaurantWithFiles parseFloat dto ad fa fb fc db
        = (inr r, db')
        /\ address r = Some aid
        /\ addresses db' !! aid = Some a
        /\ address_latitude a = Some (parseFloat (default "" (cr_latitude dto)))
        /\ address_longitude a = Some (parseFloat (default "" (cr_longitude dto)))
        /\ logged db' = logged db).
Proof.
  intros Hs. unfold coordinates_supplied in Hs. split.
  - intros other.
    unfold RestaurantService.requestRestaurantWithFiles, RestaurantService.locate_address.
    by rewrite Hs.
  - intros Ho Hp.
    destruct (requestRestaurantWithFiles_located db dto ad fa fb fc
                (with_coordinates
                   (Some (parseFloat (default "" (cr_latitude dto))))
                   (Some (parseFloat (default "" (cr_longitude dto))))
                   (addressRepository_create ad)) [] Ho Hp)
      as (r & db' & aid & Heq & Hr & Ha & Hl).
    { unfold RestaurantService.locate_address. rewrite Hs. by rewrite add_log_nil. }
    { done. }
    exists r, db', aid. eexists. split; [exact Heq |]. split; [exact Hr |].
    split; [exact Ha |]. simpl. rewrite Hl, app_nil_r. done.
Qed.

(** X17. Without both coordinates from the caller, when the geocoding
    service answers with coordinates, a stored owner and uploads that go
    through give a stored address with exactly those coordinates, and the
    success is logged. *)
Theorem geocoded_coordinates_are_stored db dto (ad : AddressData)
    (fa fb fc : option File) (c : Coordinates number) :
  coordinates_supplied dto = false ->
  geocode ad = inr (Some c) ->
  owner_exists db dto ->
  all_uploads_pass fa fb fc ->
  exists r db' aid a,
    RestaurantService.requestRestaurantWithFiles parseFloat dto ad fa fb fc db = (inr r, db')
    /\ address r = Some aid
    /\ addresses db' !! aid = Some a
    /\ address_latitude a = Some (lat c)
    /\ address_longitude a = Some (lng c)
    /\ logged db'
       = (logged db
          ++ [(LOG, ("Geocoding successful for address: " ++ ad_street ad
                     ++ ", " ++ ad_city ad)%string)])%list.
Proof.
  intros Hs Hg Ho Hp. unfold coordinates_supplied in Hs.
  destruct (requestRestaurantWithFiles_located db dto ad fa fb fc
              (with_coordinates (Some (lat c)) (Some (lng c)) (addressRepository_create ad))
              [(LOG, "Geocoding successful for address: " ++ ad_street ad
                     ++ ", " ++ ad_city ad)] Ho Hp)
    as (r & db' & aid & Heq & Hr & Ha & Hl).
  { unfold RestaurantService.locate_address. rewrite Hs.
    unfold RestaurantService.try_geocode, try_catch, bind, await. rewrite Hg. done. }
  { done. }
  exists r, db', aid. eexists. split; [exact Heq |]. split; [exact Hr |].
  split; [exact Ha |]. done.
Qed.

End MoreCreation.

(** ** Updates with attachments: a rejected upload *)

Section UpdateUploads.

Context {number : Type}.
Context {geocodingService : GeocodingService number}.
Context {gcsService : GoogleCloudStorageService}.

Implicit Types (db : Db number) (r : Restaurant number) (dto : UpdateRestaurantDto).

Lemma upload_replacements_fails db (fa fb fc : option File) r :
  some_upload_fails fa fb fc ->
  exists e, RestaurantService.upload_replacements fa fb fc r db = (inl e, db).
Proof.
  intros Hf. unfold RestaurantService.upload_replacements, bind.
  destruct (upload_passes_or_fails fa "restaurant-avatars") as [Ha | Ha].
  - destruct (upload_if_provided_passes fa _ (avatar r) db Ha) as [ua ->].
    destruct (upload_passes_or_fails fb "restaurant-backgrounds") as [Hb | Hb].
    + destruct (upload_if_provided_passes fb _ (backgroundImage r) db Hb) as [ub ->].
      destruct Hf as [Hf | [Hf | Hf]];
        [by destruct (upload_passes_not_fails _ _ Ha Hf)
        | by destruct (upload_passes_not_fails _ _ Hb Hf) |].
      destruct (upload_if_provided_fails fc _ (certificateImage r) db Hf) as [e ->].
      by exists e.
    + destruct (upload_if_provided_fails fb _ (backgroundImage r) db Hb) as [e ->].
      by exists e.
  - destruct (upload_if_provided_fails fa _ (avatar r) db Ha) as [e ->]. by exists e.
Qed.

(** X18. When the upload of a replacement file is rejected, an update
    with files throws a [BadRequestException] that carries the cause
    behind "Failed to update restaurant: " and the restaurant row is not
    written: [updateWithFiles] leaves the whole database unchanged,
    [updateWithAddressAndFiles] leaves the restaurant table unchanged
    and, when no address data was given, the whole database. *)
Theorem upload_failure_aborts_update db i r dto (oad : option AddressData)
    (fa fb fc : option File) :
  restaurants db !! i = Some r ->
  new_owner_exists db dto ->
  some_upload_fails fa fb fc ->
  (exists e,
     RestaurantService.updateWithFiles i dto fa fb fc db
     = (inl (BadRequestException ("Failed to update restaurant: " ++ message e)), db))
  /\ (exists e db',
        RestaurantService.updateWithAddressAndFiles i dto oad fa fb fc db
        = (inl (BadRequestException ("Failed to update restaurant: " ++ message e)), db')
        /\ restaurants db' = restaurants db
        /\ (oad = None -> db' = db)).
Proof.
  intros Hr Ho Hf. pose proof (findOne_found db i r Hr) as Hfo. split.
  - unfold RestaurantService.updateWithFiles. unfold bind at 1. rewrite Hfo.
    unfold bind at 1. destruct (reassign_owner_returns db dto r Ho) as (r1 & -> & _).
    unfold try_catch. unfold bind at 1.
    destruct (upload_replacements_fails db fa fb fc r1 Hf) as [e ->]. by exists e.
  - unfold RestaurantService.updateWithAddressAndFiles. unfold bind at 1. rewrite Hfo.
    unfold bind at 1. destruct (reassign_owner_returns db dto r Ho) as (r1 & -> & _).
    unfold bind at 1.
    assert (exists r2 db2,
              RestaurantService.update_address oad r1 db = (inr r2, db2)
              /\ restaurants db2 = restaurants db /\ (oad = None -> db2 = db))
      as (r2 & db2 & -> & Hsame & Hnone).
    { destruct oad as [ad |].
      - destruct (update_address_returns db (Some ad) r1) as (r2 & db2 & Heq & Hs & _).
        exists r2, db2. done.
      - by exists r1, db. }
    unfold try_catch. unfold bind at 1.
    destruct (upload_replacements_fails db2 fa fb fc r2 Hf) as [e ->].
    exists e, db2. done.
Qed.

End UpdateUploads.

Lemma sample_no_owner : ~ owner_exists Sample.db Sample.dto_without_owner.
Proof. intros [Htruthy _]. discriminate Htruthy. Qed.

Lemma creation_requires_owner_witness :
  ~ owner_exists Sample.db Sample.dto_without_owner
  /\ RestaurantService.requestRestaurant Sample.parseFloat Sample.dto_without_owner Sample.db
     = (inl (BadRequestException "Owner ID is required"), Sample.db).
Proof.
  split; [exact sample_no_owner |].
  apply (creation_requires_owner Sample.parseFloat
           (geocodingService := Sample.geocoding_down) (gcsService := Sample.bucket_down)
           Sample.db Sample.dto_without_owner Sample.addressData None None None
           sample_no_owner).
Defined.

Lemma sample_owner_of_address_dto : owner_exists Sample.db Sample.dto_with_address.
Proof. split; [reflexivity | by eexists]. Qed.

Lemma address_string_becomes_street_witness :
  owner_exists Sample.db Sample.dto_with_address
  /\ exists r db',
       RestaurantService.create Sample.parseFloat Sample.dto_with_address Sample.db
       = (inr r, db')
       /\ exists aid,
            address r = Some aid
            /\ addresses db'
               = <[aid := mkAddress (Some aid) (Some "1 Le Loi") None None None None None]>
                   (addresses Sample.db).
Proof.
  split; [exact sample_owner_of_address_dto |].
  destruct (address_string_becomes_street Sample.parseFloat Sample.db
              Sample.dto_with_address sample_owner_of_address_dto)
    as [(r & db' & Heq & _ & Hyes) _].
  destruct (Hyes eq_refl) as (aid & Ha & _ & Hrow).
  exists r, db'. split; [exact Heq |]. exists aid. split; [exact Ha | exact Hrow].
Defined.

Lemma sample_owner_of_coordinates_dto : owner_exists Sample.db Sample.dto_with_coordinates.
Proof. split; [reflexivity | by eexists]. Qed.

Lemma supplied_coordinates_bypass_geocoding_witness :
  coordinates_supplied Sample.dto_with_coordinates = true
  /\ RestaurantService.requestRestaurantWithFiles Sample.parseFloat
       (geocodingService := Sample.geocoding_up) (gcsService := Sample.bucket_no_delete)
       Sample.dto_with_coordinates Sample.addressData (Some Sample.avatarFile) None None
       Sample.db
     = RestaurantService.requestRestaurantWithFiles Sample.parseFloat
         (geocodingService := Sample.geocoding_down) (gcsService := Sample.bucket_no_delete)
         Sample.dto_with_coordinates Sample.addressData (Some Sample.avatarFile) None None
         Sample.db.
Proof.
  split; [reflexivity |].
  destruct (supplied_coordinates_bypass_geocoding Sample.parseFloat
              (geocodingService := Sample.geocoding_down)
              (gcsService := Sample.bucket_no_delete)
              Sample.db Sample.dto_with_coordinates Sample.addressData
              (Some Sample.avatarFile) None None eq_refl) as [Hsame _].
  exact (Hsame Sample.geocoding_up).
Defined.

Lemma geocoded_coordinates_are_stored_witness :
  coordinates_supplied Sample.dto = false
  /\ geocode (GeocodingService := Sample.geocoding_up) Sample.addressData
     = inr (Some (mkCoordinates 10 106))
  /\ owner_exists Sample.db Sample.dto
  /\ all_uploads_pass (gcs := Sample.bucket_no_delete) (Some Sample.avatarFile) None None
  /\ exists r db' aid a,
       RestaurantService.requestRestaurantWithFiles Sample.parseFloat
         (geocodingService := Sample.geocoding_up) (gcsService := Sample.bucket_no_delete)
         Sample.dto Sample.addressData (Some Sample.avatarFile) None None Sample.db
       = (inr r, db')
       /\ address r = Some aid
       /\ addresses db' !! aid = Some a
       /\ address_latitude a = Some 10
       /\ address_longitude a = Some 106.
Proof.
  split; [reflexivity |]. split; [reflexivity |]. split; [exact sample_owner_exists |].
  split; [exact sample_uploads_pass |].
  destruct (geocoded_coordinates_are_stored Sample.parseFloat
              (geocodingService := Sample.geocoding_up)
              (gcsService := Sample.bucket_no_delete)
              Sample.db Sample.dto Sample.addressData (Some Sample.avatarFile) None None
              (mkCoordinates 10 106) eq_refl eq_refl sample_owner_exists sample_uploads_pass)
    as (r & db' & aid & a & Heq & Hr & Ha & Hlat & Hlng & _).
  exists r, db', aid, a. repeat split; assumption.
Defined.

Lemma upload_failure_aborts_update_witness :
  restaurants Sample.db !! "r1" = Some Sample.joes
  /\ new_owner_exists Sample.db Sample.noChange
  /\ some_upload_fails (gcs := Sample.bucket_down) (Some Sample.avatarFile) None None
  /\ exists e,
       RestaurantService.updateWithFiles (gcsService := Sample.bucket_down)
         "r1" Sample.noChange (Some Sample.avatarFile) None None Sample.db
       = (inl (BadRequestException ("Failed to update restaurant: " ++ message e)),
          Sample.db).
Proof.
  split; [reflexivity |]. split; [exact sample_keeps_owner |].
  split; [exact sample_upload_fails |].
  apply (upload_failure_aborts_update
           (geocodingService := Sample.geocoding_down) (gcsService := Sample.bucket_down)
           Sample.db "r1" Sample.joes Sample.noChange None
           (Some Sample.avatarFile) None None eq_refl sample_keeps_owner sample_upload_fails).
Defined.

(** ** Users: roles, passwords, lookups, removal *)

Section MoreUsers.

Context {number : Type}.
Context {bcrypt : Bcrypt}.

Implicit Types (db : Db number) (u : User) (i : string).

(** The first row of a table that satisfies a test, as the lookups by
    name, username and email find it. *)
Lemma find_in_table {V : Type} (m : gmap string V) (f : V -> bool) :
  match snd <$> List.find (fun kv => f (snd kv)) (map_to_list m) with
  | Some v => f v = true /\ exists k, m !! k = Some v
  | None => forall k v, m !! k = Some v -> f v = false
  end.
Proof.
  destruct (List.find _ (map_to_list m)) as [[k v] |] eqn:Hfind; simpl.
  - apply find_some in Hfind as [Hin Hf]. split; [done |]. exists k.
    by apply elem_of_map_to_list, list_elem_of_In.
  - intros k v Hkv. apply (find_none _ _ Hfind (k, v)).
    by apply list_elem_of_In, elem_of_map_to_list.
Qed.

Lemma users_findOne_found db i u :
  users db !! i = Some u -> UsersService.findOne i db = (inr u, db).
Proof.
  intros H. unfold UsersService.findOne, bind, UsersService.usersRepository_findOne,
    userRepository_findOne. simpl. by rewrite H.
Qed.

Lemma users_findOne_missing db i :
  users db !! i = None ->
  UsersService.findOne i db = (inl (Error ("User with id " ++ i ++ " not found")), db).
Proof.
  intros H. unfold UsersService.findOne, bind, UsersService.usersRepository_findOne,
    userRepository_findOne. simpl. by rewrite H.
Qed.

(** Saving a user that was loaded from the table and edited writes the
    edited user itself. *)
Lemma usersRepository_save_loaded db i u u' :
  users db !! i = Some u -> user_id u' = i ->
  user_name u' <> None \/ user_name u' = user_name u ->
  authProvider u' <> None \/ authProvider u' = authProvider u ->
  googleId u' <> None \/ googleId u' = googleId u ->
  usersRepository_save u' db = (inr u', set_users (<[i := u']> (users db)) db).
Proof.
  intros Hu Hid Hn Ha Hg. unfold usersRepository_save. rewrite Hid, Hu.
  do 3 f_equal. unfold merge_user. destruct u' as [? ? ? ? n ? a g]. simpl in *. f_equal.
  - destruct n; [done |]. destruct Hn; [done | congruence].
  - destruct a; [done |]. destruct Ha; [done | congruence].
  - destruct g; [done |]. destruct Hg; [done | congruence].
Qed.

(** X19. [register] never takes the role from the DTO: with a role named
    USER stored, it returns a user whose role is a stored role of that
    name, whatever role the DTO names. *)
Theorem register_assigns_default_role db (dto : CreateUserDto) (uuidv4 : string)
    (oi : option string) :
  has_default_role db ->
  exists u k ro,
    (UsersService.register uuidv4 dto oi db).1 = inr u
    /\ roles db !! k = Some ro
    /\ role_name ro = UsersService.DefaultRole_USER
    /\ role u = role_id ro.
Proof.
  intros (k0 & ro0 & Hro0 & Hname0).
  unfold UsersService.register, bind, rolesRepository_findOne_name. simpl.
  pose proof (find_in_table (roles db)
                (fun ro => bool_decide (role_name ro = UsersService.DefaultRole_USER))) as Hf.
  destruct (snd <$> List.find _ (map_to_list (roles db))) as [ro |].
  - destruct Hf as [Hn [k Hk]]. apply bool_decide_eq_true_1 in Hn.
    eexists _, k, ro. split; [reflexivity |]. done.
  - specialize (Hf k0 ro0 Hro0). by rewrite bool_decide_eq_true_2 in Hf.
Qed.

(** X20. User creation without its role writes nothing: [register]
    throws "Default User role not found" when no role is named USER, and
    [create] throws "Failed to create user: Role not found" when the
    DTO's role id is not stored; the database is unchanged in both. *)
Theorem user_creation_requires_role db (dto : CreateUserDto) (uuidv4 : string)
    (oi : option string) :
  (~ has_default_role db ->
   UsersService.register uuidv4 dto oi db
   = (inl (Error "Default User role not found"), db))
  /\ (roles db !! cu_role dto = None ->
      UsersService.create uuidv4 dto db
      = (inl (Error "Failed to create user: Role not found"), db)).
Proof.
  split.
  - intros Hno. unfold UsersService.register, bind, rolesRepository_findOne_name. simpl.
    pose proof (find_in_table (roles db)
                  (fun ro => bool_decide (role_name ro = UsersService.DefaultRole_USER)))
      as Hf.
    destruct (snd <$> List.find _ (map_to_list (roles db))) as [ro |]; [| done].
    destruct Hf as [Hn [k Hk]]. apply bool_decide_eq_true_1 in Hn.
    destruct Hno. by exists k, ro.
  - intros Hmiss. unfold UsersService.create, try_catch, bind, rolesRepository_findOne_id.
    simpl. by rewrite Hmiss.
Qed.

(** X21. A user created under an id that was free can be read back:
    [findById] and [getMe] on the generated id return the created user,
    [findByUsername] and [findByEmail] on the DTO's values find a user
    with that username or email, and every other id reads as before. *)
Theorem created_user_is_found db (dto : CreateUserDto) (uuidv4 : string) :
  is_Some (roles db !! cu_role dto) ->
  users db !! Js.substring0 28 uuidv4 = None ->
  exists u db',
    UsersService.create uuidv4 dto db = (inr u, db')
    /\ user_id u = Js.substring0 28 uuidv4
    /\ UsersService.findById (user_id u) db' = (inr (Some u), db')
    /\ UsersService.getMe (user_id u) db' = (inr u, db')
    /\ (exists v, UsersService.findByUsername (cu_username dto) db' = (inr (Some v), db')
                  /\ username v = cu_username dto)
    /\ (exists v, UsersService.findByEmail (cu_email dto) db' = (inr (Some v), db')
                  /\ email v = cu_email dto)
    /\ (forall j, j <> user_id u ->
                  UsersService.findById j db' = (inr (users db !! j), db')).
Proof.
  intros [ro Hro] Hfree.
  unfold UsersService.create, try_catch, bind, rolesRepository_findOne_id. simpl.
  rewrite Hro. unfold usersRepository_save. simpl. rewrite Hfree.
  do 2 eexists. split; [reflexivity |]. simpl. split; [done |].
  set (u := mkUser _ _ _ _ _ _ _ _).
  set (db' := set_users _ db).
  assert (Hu : users db' !! Js.substring0 28 uuidv4 = Some u)
    by (unfold db'; simpl; by rewrite lookup_insert_eq).
  split; [| split; [| split; [| split]]].
  - unfold UsersService.findById, UsersService.usersRepository_findOne,
      userRepository_findOne. by rewrite Hu.
  - by apply getMe_found.
  - unfold UsersService.findByUsername, usersRepository_findOne_username.
    pose proof (find_in_table (users db')
                  (fun v => bool_decide (username v = cu_username dto))) as Hf.
    destruct (snd <$> List.find _ (map_to_list (users db'))) as [v |].
    + destruct Hf as [Hn _]. apply bool_decide_eq_true_1 in Hn. by exists v.
    + specialize (Hf _ _ Hu). by rewrite bool_decide_eq_true_2 in Hf.
  - unfold UsersService.findByEmail, usersRepository_findOne_email.
    pose proof (find_in_table (users db')
                  (fun v => bool_decide (email v = cu_email dto))) as Hf.
    destruct (snd <$> List.find _ (map_to_list (users db'))) as [v |].
    + destruct Hf as [Hn _]. apply bool_decide_eq_true_1 in Hn. by exists v.
    + specialize (Hf _ _ Hu). by rewrite bool_decide_eq_true_2 in Hf.
  - intros j Hj. unfold UsersService.findById, UsersService.usersRepository_findOne,
      userRepository_findOne. unfold db'. simpl. by rewrite lookup_insert_ne.
Qed.

(** X22. The administrative [update] is the one path that changes a
    role: for a stored user, a role id that is stored becomes the user's
    role, a role id that is not stored makes the call throw "Role not
    found" with the database unchanged, and without a role id the role
    stays. *)
Theorem update_changes_role db i u (dto : UpdateUserDto) :
  keyed db ->
  users db !! i = Some u ->
  (Js.truthy (uu_role dto) = true ->
   roles db !! default "" (uu_role dto) = None ->
   UsersService.update i dto db = (inl (Error "Role not found"), db))
  /\ (forall ro,
        Js.truthy (uu_role dto) = true ->
        roles db !! default "" (uu_role dto) = Some ro ->
        exists u',
          UsersService.update i dto db
          = (inr u', set_users (<[i := u']> (users db)) db)
          /\ role u' = role_id ro)
  /\ (Js.truthy (uu_role dto) = false ->
      exists u',
        UsersService.update i dto db
        = (inr u', set_users (<[i := u']> (users db)) db)
        /\ role u' = role u).
Proof.
  intros (_ & _ & Hk) Hu. pose proof (Hk _ _ Hu) as Hid. simpl in Hid.
  pose proof (users_findOne_found db i u Hu) as Hfo.
  assert (Hname : forall v : User,
            user_name v = user_name u ->
            user_name (UsersService.Object_assign v
                         (UsersService.hash_password_if_given
                            (UsersService.without_role dto))) <> None
            \/ user_name (UsersService.Object_assign v
                            (UsersService.hash_password_if_given
                               (UsersService.without_role dto))) = user_name u).
  { intros v Hv. unfold UsersService.hash_password_if_given, UsersService.without_role,
      Js.assign. simpl.
    destruct (Js.truthy (uu_password dto)); simpl; destruct (uu_name dto); simpl; auto. }
  assert (Hkey : forall v : User,
            user_id v = i ->
            user_id (UsersService.Object_assign v
                       (UsersService.hash_password_if_given
                          (UsersService.without_role dto))) = i).
  { intros v Hv. unfold UsersService.hash_password_if_given, UsersService.without_role.
    simpl. by destruct (Js.truthy (uu_password dto)). }
  assert (Hrole : forall v : User,
            role (UsersService.Object_assign v
                    (UsersService.hash_password_if_given
                       (UsersService.without_role dto))) = role v).
  { intros v. unfold UsersService.hash_password_if_given, UsersService.without_role.
    simpl. by destruct (Js.truthy (uu_password dto)). }
  split; [| split].
  - intros Ht Hmiss. unfold UsersService.update, bind, rolesRepository_findOne_id.
    rewrite Hfo, Ht. simpl. by rewrite Hmiss.
  - intros ro Ht Hro. unfold UsersService.update, bind, rolesRepository_findOne_id.
    rewrite Hfo, Ht. simpl. rewrite Hro. simpl.
    rewrite (usersRepository_save_loaded db i u);
      [| done | by apply Hkey | by apply Hname | by right | by right].
    eexists. split; [reflexivity |]. by rewrite Hrole.
  - intros Ht. unfold UsersService.update, bind. rewrite Hfo, Ht. simpl.
    rewrite (usersRepository_save_loaded db i u);
      [| done | by apply Hkey | by apply Hname | by right | by right].
    eexists. split; [reflexivity |]. by rewrite Hrole.
Qed.

Lemma stored_password_cases (before p : string) :
  stored_password None before = before
  /\ stored_password (Some "") before = ""
  /\ (p <> "" -> stored_password (Some p) before = bcrypt_hash p 10).
Proof.
  unfold stored_password. simpl. split; [done |]. split; [done |].
  intros Hp. by rewrite bool_decide_eq_false_2.
Qed.

Lemma Object_assign_password u (dto : UpdateUserDto) :
  password (UsersService.Object_assign u
              (UsersService.hash_password_if_given (UsersService.without_role dto)))
  = stored_password (uu_password dto) (password u).
Proof.
  unfold UsersService.hash_password_if_given, UsersService.without_role, stored_password,
    Js.assign. simpl.
  by destruct (Js.truthy (uu_password dto)).
Qed.

(** X23. What the update paths store as password, for a stored user:
    [updateMe] and [update] store the bcrypt digest of a non-empty
    payload password, keep the stored password when the payload has none,
    and store the empty string as it is when the payload's password is
    the empty string; [updatePassword] stores the digest of whatever it
    is given and keeps role, username and email. *)
Theorem update_paths_store_password db i u (dto : UpdateUserDto) (newPassword : string) :
  keyed db ->
  users db !! i = Some u ->
  (exists u',
     UsersService.updateMe i dto db = (inr u', set_users (<[i := u']> (users db)) db)
     /\ password u' = stored_password (uu_password dto) (password u))
  /\ (forall u' db',
        UsersService.update i dto db = (inr u', db') ->
        users db' !! i = Some u'
        /\ password u' = stored_password (uu_password dto) (password u))
  /\ (exists u',
        UsersService.updatePassword i newPassword db
        = (inr u', set_users (<[i := u']> (users db)) db)
        /\ password u' = bcrypt_hash newPassword 10
        /\ role u' = role u /\ username u' = username u /\ email u' = email u)
  /\ (forall before p,
        stored_password None before = before
        /\ stored_password (Some "") before = ""
        /\ (p <> "" -> stored_password (Some p) before = bcrypt_hash p 10)).
Proof.
  intros (_ & _ & Hk) Hu. pose proof (Hk _ _ Hu) as Hid. simpl in Hid.
  pose proof (users_findOne_found db i u Hu) as Hfo.
  assert (Hname : forall v : User,
            user_name v = user_name u ->
            user_name (UsersService.Object_assign v
                         (UsersService.hash_password_if_given
                            (UsersService.without_role dto))) <> None
            \/ user_name (UsersService.Object_assign v
                            (UsersService.hash_password_if_given
                               (UsersService.without_role dto))) = user_name u).
  { intros v Hv. unfold UsersService.hash_password_if_given, UsersService.without_role,
      Js.assign. simpl.
    destruct (Js.truthy (uu_password dto)); simpl; destruct (uu_name dto); simpl; auto. }
  assert (Hkey : forall v : User,
            user_id v = i ->
            user_id (UsersService.Object_assign v
                       (UsersService.hash_password_if_given
                          (UsersService.without_role dto))) = i).
  { intros v Hv. unfold UsersService.hash_password_if_given, UsersService.without_role.
    simpl. by destruct (Js.truthy (uu_password dto)). }
  split; [| split; [| split]].
  - unfold UsersService.updateMe, bind. rewrite (getMe_found _ _ _ Hu).
    rewrite (usersRepository_save_loaded db i u);
      [| done | by apply Hkey | by apply Hname | by right | by right].
    eexists. split; [reflexivity |]. apply Object_assign_password.
  - intros u' db'. unfold UsersService.update, bind, rolesRepository_findOne_id.
    rewrite Hfo. destruct (Js.truthy (uu_role dto)); simpl.
    + destruct (roles db !! default "" (uu_role dto)) as [ro |]; simpl; [| done].
      rewrite (usersRepository_save_loaded db i u);
        [| done | by apply Hkey | by apply Hname | by right | by right].
      intros [= <- <-]. simpl. split; [by rewrite lookup_insert_eq |].
      apply (Object_assign_password (UsersService.with_role ro u)).
    + rewrite (usersRepository_save_loaded db i u);
        [| done | by apply Hkey | by apply Hname | by right | by right].
      intros [= <- <-]. simpl. split; [by rewrite lookup_insert_eq |].
      apply Object_assign_password.
  - unfold UsersService.updatePassword, bind. rewrite Hfo.
    rewrite (usersRepository_save_loaded db i u);
      [| done | done | by right | by right | by right].
    eexists. split; [reflexivity |]. done.
  - intros before p. apply stored_password_cases.
Qed.



(** X26. [updateUserProvider] links a stored user to an authentication
    provider and changes nothing else of the user: password, role,
    username and email stay; for an id that is not stored it throws and
    the database is unchanged. *)
Theorem updateUserProvider_links_account db i (provider googleId_ : string) :
  keyed db ->
  (forall u, users db !! i = Some u ->
     exists u',
       UsersService.updateUserProvider i provider googleId_ db
       = (inr u', set_users (<[i := u']> (users db)) db)
       /\ authProvider u' = Some provider /\ googleId u' = Some googleId_
       /\ password u' = password u /\ role u' = role u
       /\ username u' = username u /\ email u' = email u
       /\ user_name u' = user_name u)
  /\ (users db !! i = None ->
      UsersService.updateUserProvider i provider googleId_ db
      = (inl (Error ("User with id " ++ i ++ " not found")), db)).
Proof.
  intros (_ & _ & Hk). split.
  - intros u Hu. pose proof (Hk _ _ Hu) as Hid. simpl in Hid.
    unfold UsersService.updateUserProvider, bind, UsersService.usersRepository_findOne,
      userRepository_findOne. simpl. rewrite Hu.
    rewrite (usersRepository_save_loaded db i u);
      [| done | done | by right | by left | by left].
    eexists. split; [reflexivity |]. done.
  - intros Hmiss.
    unfold UsersService.updateUserProvider, bind, UsersService.usersRepository_findOne,
      userRepository_findOne. simpl. by rewrite Hmiss.
Qed.

End MoreUsers.

Lemma register_assigns_default_role_witness :
  has_default_role Sample.db
  /\ exists u k ro,
       (UsersService.register (bcrypt := Sample.toy_bcrypt) Sample.uuid Sample.bobDto None
          Sample.db).1 = inr u
       /\ roles Sample.db !! k = Some ro
       /\ role_name ro = "USER"
       /\ role u = role_id ro.
Proof.
  split; [exact sample_has_default_role |].
  apply (register_assigns_default_role (bcrypt := Sample.toy_bcrypt)
           Sample.db Sample.bobDto Sample.uuid None sample_has_default_role).
Defined.

Lemma created_user_is_found_witness :
  is_Some (roles Sample.db !! cu_role Sample.bobDto)
  /\ users Sample.db !! Js.substring0 28 Sample.uuid = None
  /\ exists u db',
       UsersService.create (bcrypt := Sample.toy_bcrypt) Sample.uuid Sample.bobDto Sample.db
       = (inr u, db')
       /\ UsersService.findById (user_id u) db' = (inr (Some u), db').
Proof.
  assert (Hrole : is_Some (roles Sample.db !! cu_role Sample.bobDto)) by (by eexists).
  split; [exact Hrole |]. split; [reflexivity |].
  destruct (created_user_is_found (bcrypt := Sample.toy_bcrypt)
              Sample.db Sample.bobDto Sample.uuid Hrole eq_refl)
    as (u & db' & Heq & _ & Hfind & _).
  exists u, db'. split; [exact Heq | exact Hfind].
Defined.

Lemma update_changes_role_witness :
  keyed Sample.db
  /\ users Sample.db !! "u1" = Some Sample.alice
  /\ UsersService.update (bcrypt := Sample.toy_bcrypt) "u1" Sample.promote_unknown Sample.db
     = (inl (Error "Role not found"), Sample.db)
  /\ exists u',
       UsersService.update (bcrypt := Sample.toy_bcrypt) "u1" Sample.promote Sample.db
       = (inr u', set_users (<["u1" := u']> (users Sample.db)) Sample.db)
       /\ role u' = "role-admin".
Proof.
  split; [exact sample_db_keyed |]. split; [reflexivity |]. split.
  - apply (update_changes_role (bcrypt := Sample.toy_bcrypt) Sample.db "u1" Sample.alice
             Sample.promote_unknown sample_db_keyed eq_refl); reflexivity.
  - destruct (update_changes_role (bcrypt := Sample.toy_bcrypt) Sample.db "u1" Sample.alice
                Sample.promote sample_db_keyed eq_refl) as (_ & Hset & _).
    exact (Hset Sample.role_admin eq_refl eq_refl).
Defined.

Lemma update_paths_store_password_witness :
  keyed Sample.db
  /\ users Sample.db !! "u1" = Some Sample.alice
  /\ exists u',
       UsersService.updateMe (bcrypt := Sample.toy_bcrypt) "u1"
         (mkUpdateUserDto None None (Some "") None None) Sample.db
       = (inr u', set_users (<["u1" := u']> (users Sample.db)) Sample.db)
       /\ password u' = "".
Proof.
  split; [exact sample_db_keyed |]. split; [reflexivity |].
  destruct (update_paths_store_password (bcrypt := Sample.toy_bcrypt) Sample.db "u1"
              Sample.alice (mkUpdateUserDto None None (Some "") None None) "next"
              sample_db_keyed eq_refl) as ((u' & Heq & Hpw) & _).
  exists u'. split; [exact Heq | exact Hpw].
Defined.


Lemma updateUserProvider_links_account_witness :
  keyed Sample.db
  /\ exists u',
       UsersService.updateUserProvider "u1" "google" "g-123" Sample.db
       = (inr u', set_users (<["u1" := u']> (users Sample.db)) Sample.db)
       /\ authProvider u' = Some "google"
       /\ password u' = password Sample.alice.
Proof.
  split; [exact sample_db_keyed |].
  destruct (updateUserProvider_links_account Sample.db "u1" "google" "g-123"
              sample_db_keyed) as [Hlink _].
  destruct (Hlink Sample.alice eq_refl) as (u' & Heq & Ha & _ & Hpw & _).
  exists u'. split; [exact Heq |]. split; [exact Ha | exact Hpw].
Defined.

(** ** The remaining operations keep the tables well formed *)

Section MoreInvariant.

Context {number : Type}.
Context {bcrypt : Bcrypt}.



End MoreInvariant.
